(** * Admin hooks for durable objects: router and freeze-gated storage layer

    A shallow embedding of [withAdminHooks] (the package's single source
    module): the timing-safe comparator, the storage adapter operations
    over the durable-object storage binding, the freeze guard, and the
    request router [handleAdminRequest]. *)

From Stdlib Require Import ZArith String Ascii List Bool Lia.
From stdpp Require Import gmap strings list fin_maps pretty.
Import ListNotations.

Set Warnings "-register-all".

Local Open Scope string_scope.
Local Open Scope Z_scope.

(** ** JavaScript values

    The values that cross the admin interface: request bodies produced by
    [request.json()], stored values, and response payloads.  Numbers are
    restricted to integers.  An object is its list of own enumerable
    properties. *)

Inductive JsValue : Type :=
| JUndefined
| JNull
| JBool (b : bool)
| JNumber (n : Z)
| JString (s : string)
| JArray (items : list JsValue)
| JObject (props : list (string * JsValue)).

(** [Record<string, unknown>]. *)
Abbreviation JsRecord := (list (string * JsValue)).

(** ToBoolean: what [if (v)] and [!v] test. *)
Definition truthy (v : JsValue) : bool :=
  match v with
  | JUndefined | JNull => false
  | JBool b => b
  | JNumber n => negb (n =? 0)
  | JString s => negb (String.eqb s "")
  | JArray _ | JObject _ => true
  end.

(** [v === s] for a string [s]. *)
Definition strictEqString (v : JsValue) (s : string) : bool :=
  match v with
  | JString t => String.eqb t s
  | _ => false
  end.

(** [typeof v === "object"] ([null] included, as in JavaScript). *)
Definition typeofObject (v : JsValue) : bool :=
  match v with JNull | JArray _ | JObject _ => true | _ => false end.

(** [a ?? b] *)
Definition nullish (v : JsValue) : bool :=
  match v with JUndefined | JNull => true | _ => false end.

(** ToString, for numbers below 10^21.  The storage binding takes string
    keys; the model passes a key argument that is not a string through this
    conversion, and the properties below are stated for string keys. *)
Fixpoint ToString (v : JsValue) : string :=
  match v with
  | JUndefined => "undefined"
  | JNull => "null"
  | JBool true => "true"
  | JBool false => "false"
  | JNumber n => pretty n
  | JString s => s
  | JArray items =>
      String.concat ","
        (map (fun x => if nullish x then "" else ToString x) items)
  | JObject _ => "[object Object]"
  end.

(** Own property lookup on a record. *)
Fixpoint recordGet (props : JsRecord) (name : string) : option JsValue :=
  match props with
  | [] => None
  | (k, v) :: rest => if String.eqb k name then Some v else recordGet rest name
  end.

(** ** Timing-safe comparison

    A string is its sequence of characters, and the code of a character
    is the number [charCodeAt] returns for it. *)

(** [s.charCodeAt(i)]; [None] stands for NaN (index out of range). *)
Definition charCodeAt (s : string) (i : nat) : option Z :=
  match String.get i s with
  | Some c => Some (Z.of_N (N_of_ascii c))
  | None => None
  end.

(** Operand conversion of the bitwise operators: NaN becomes 0, a
    character code is its own 32-bit integer. *)
Definition toInt32 (x : option Z) : Z :=
  match x with Some z => z | None => 0 end.

(** The body of [for (let i = 0; i < a.length; i++)], run from index [i]
    for the [fuel] iterations that remain. *)
Fixpoint timingSafeEqual_loop (a b : string) (i fuel : nat) (result : Z) : Z :=
  match fuel with
  | O => result
  | S fuel' =>
      timingSafeEqual_loop a b (S i) fuel'
        (Z.lor result
           (Z.lxor (toInt32 (charCodeAt a i)) (toInt32 (charCodeAt b i))))
  end.

Definition timingSafeEqual (a b : string) : bool :=
  if negb (Nat.eqb (String.length a) (String.length b)) then false
  else timingSafeEqual_loop a b 0 (String.length a) 0 =? 0.


(** ** Failures, the storage binding and the world an instance runs in *)

(** What a [throw] carries: an [Error] with its message, or any other
    value. *)
Inductive Thrown : Type :=
| ErrorObj (message : string)
| ThrownValue (v : JsValue).

(** [SqlStorageResult]: [toArray()] and [columnNames]. *)
Record SqlStorageResult : Type := mkSqlResult {
  rows : list JsRecord;
  columnNames : list string }.

(** The calls made on [this.state.storage], in the order they are made. *)
Inductive StorageCall : Type :=
| CallGet (key : string)
| CallPut (key : string) (value : JsValue)
| CallPutEntries (entries : JsRecord)
| CallDelete (key : string)
| CallList
| CallGetAlarm
| CallSetAlarm (scheduledTime : Z)
| CallDeleteAlarm
| CallSqlExec (query : JsValue).

(** The calls that can change what the storage holds. *)
Definition mutating (c : StorageCall) : bool :=
  match c with
  | CallGet _ | CallList | CallGetAlarm => false
  | _ => true
  end.

(** The [TypeError]s of the storage binding. *)
Definition undefinedValueError : Thrown :=
  ErrorObj "put() called with undefined value.".

Definition alarmTimeError : Thrown :=
  ErrorObj "setAlarm() cannot be called with an alarm time <= 0".

(** [v === undefined] *)
Definition isUndefined (v : JsValue) : bool :=
  match v with JUndefined => true | _ => false end.

Definition FROZEN_STORAGE_KEY : string := "__do_manager_frozen".

(** [`${FROZEN_STORAGE_KEY}_at`] *)
Definition FROZEN_AT_KEY : string := FROZEN_STORAGE_KEY ++ "_at".

(** Response types of the operations. *)
Record AdminListResponse : Type := mkListResponse {
  keys : option (list string);
  tables : option (list JsValue) }.

Record AdminGetResponse : Type := mkGetResponse { value : JsValue }.

Record AdminExportResponse : Type := mkExportResponse {
  data : JsRecord;
  exportedAt : string;
  keyCount : nat }.

Record AdminAlarmResponse : Type := mkAlarmResponse { alarm : option Z }.

Record AdminSqlResponse : Type := mkSqlResponse {
  result : list JsRecord;
  rowCount : nat;
  columns : list string }.

(** [frozenAt] is [None] when the object has no such property. *)
Record AdminFreezeResponse : Type := mkFreezeResponse {
  frozen : bool;
  frozenAt : option JsValue }.

(** [data[key] = value] on an object created by [{}]: the name
    [__proto__] is an accessor inherited from [Object.prototype], so the
    assignment runs that setter and creates no own property; any other
    name is created or overwritten in place. *)
Fixpoint recordReplace (props : JsRecord) (key : string) (v : JsValue) : JsRecord :=
  match props with
  | [] => []
  | (k, x) :: rest =>
      if String.eqb k key then (k, v) :: rest
      else (k, x) :: recordReplace rest key v
  end.

Definition objSet (props : JsRecord) (key : string) (v : JsValue) : JsRecord :=
  if String.eqb key "__proto__" then props
  else match recordGet props key with
       | Some _ => recordReplace props key v
       | None => props ++ [(key, v)]
       end.

(** The entries the assignment [data[key] = value] keeps. *)
Definition notProto (e : string * JsValue) : bool :=
  negb (String.eqb e.1 "__proto__").

(** [storage.put(entries)]: every entry is written. *)
Definition putAll (entries : JsRecord) (m : gmap string JsValue) : gmap string JsValue :=
  fold_left (fun acc e => <[e.1 := e.2]> acc) entries m.

Section AdminHooks.

(** The relational backend is a collaborator: its database states and
    what [sql.exec] does on them are parameters. *)
Context {SqlDb : Type}.
Variable sqlExec : JsValue -> SqlDb -> (Thrown + SqlStorageResult) * SqlDb.

(** The key-value entries, the alarm, the relational backend when the
    instance has one, the host clock ([new Date().toISOString()]), and the
    storage calls made so far. *)
Record World : Type := mkWorld {
  kv : gmap string JsValue;
  alarmAt : option Z;
  sql : option SqlDb;
  clock : string;
  calls : list StorageCall }.

Definition logCall (c : StorageCall) (w : World) : World :=
  mkWorld (kv w) (alarmAt w) (sql w) (clock w) (calls w ++ [c]).

Definition setKv (m : gmap string JsValue) (w : World) : World :=
  mkWorld m (alarmAt w) (sql w) (clock w) (calls w).

Definition setAlarmAt (a : option Z) (w : World) : World :=
  mkWorld (kv w) a (sql w) (clock w) (calls w).

Definition setSql (db : option SqlDb) (w : World) : World :=
  mkWorld (kv w) (alarmAt w) db (clock w) (calls w).

(** An awaited computation: it returns or throws, and leaves a world. *)
Definition Async (A : Type) : Type := World -> (Thrown + A) * World.

Definition ret {A : Type} (a : A) : Async A := fun w => (inr a, w).

Definition throw {A : Type} (e : Thrown) : Async A := fun w => (inl e, w).

Definition bind {A B : Type} (m : Async A) (f : A -> Async B) : Async B :=
  fun w =>
    match m w with
    | (inl e, w') => (inl e, w')
    | (inr a, w') => f a w'
    end.

Notation "'let*' x ':=' m 'in' k" := (bind m (fun x => k))
  (at level 10, x name, m at level 100, k at level 200).
Notation "m ';;' k" := (bind m (fun _ => k))
  (at level 100, k at level 200, right associativity).

(** *** The [DurableObjectStorage] interface *)

Definition storage_get (key : string) : Async JsValue :=
  fun w => (inr (default JUndefined (kv w !! key)), logCall (CallGet key) w).

(** [storage.put(key, value)]: the binding rejects the value [undefined]
    with a [TypeError] and stores nothing; any other value is written. *)
Definition storage_put (key : string) (v : JsValue) : Async unit :=
  fun w =>
    match v with
    | JUndefined => (inl undefinedValueError, logCall (CallPut key v) w)
    | _ => (inr tt, logCall (CallPut key v) (setKv (<[key := v]> (kv w)) w))
    end.

Definition storage_putEntries (entries : JsRecord) : Async unit :=
  fun w => (inr tt, logCall (CallPutEntries entries) (setKv (putAll entries (kv w)) w)).

Definition storage_delete (key : string) : Async bool :=
  fun w => (inr (bool_decide (is_Some (kv w !! key))),
            logCall (CallDelete key) (setKv (delete key (kv w)) w)).

Definition storage_list : Async (list (string * JsValue)) :=
  fun w => (inr (map_to_list (kv w)), logCall CallList w).

Definition storage_getAlarm : Async (option Z) :=
  fun w => (inr (alarmAt w), logCall CallGetAlarm w).

(** [storage.setAlarm(scheduledTime)]: the binding rejects a time that is
    not positive with a [TypeError] and schedules nothing.  Times are
    integers of the range the binding takes. *)
Definition storage_setAlarm (scheduledTime : Z) : Async unit :=
  fun w =>
    if scheduledTime <=? 0
    then (inl alarmTimeError, logCall (CallSetAlarm scheduledTime) w)
    else (inr tt,
          logCall (CallSetAlarm scheduledTime) (setAlarmAt (Some scheduledTime) w)).

Definition storage_deleteAlarm : Async unit :=
  fun w => (inr tt, logCall CallDeleteAlarm (setAlarmAt None w)).

Definition sql_exec (db : SqlDb) (query : JsValue) : Async SqlStorageResult :=
  fun w =>
    let '(r, db') := sqlExec query db in
    (r, logCall (CallSqlExec query) (setSql (Some db') w)).

(** [new Date().toISOString()] *)
Definition dateNow : Async string := fun w => (inr (clock w), w).

(** *** The storage adapter operations *)

Definition frozenError : Thrown :=
  ErrorObj "Instance is frozen. Unfreeze before making changes.".

Definition frozenImportError : Thrown :=
  ErrorObj "Instance is frozen. Unfreeze before importing data.".

Definition listTablesQuery : string :=
  "SELECT name FROM sqlite_master WHERE type='table' AND name NOT LIKE 'sqlite_%' AND name NOT LIKE '_cf_%'".

Definition adminList : Async AdminListResponse :=
  fun w =>
    match sql w with
    | Some db =>
        (let* r := sql_exec db (JString listTablesQuery) in
         ret (mkListResponse None
                (Some (map (fun row => default JUndefined (recordGet row "name"))
                           (rows r))))) w
    | None =>
        (let* entries := storage_list in
         ret (mkListResponse (Some (map fst entries)) None)) w
    end.

Definition adminGet (key : string) : Async AdminGetResponse :=
  let* v := storage_get key in
  ret (mkGetResponse v).

Definition adminPut (key : JsValue) (v : JsValue) : Async unit :=
  (if negb (strictEqString key FROZEN_STORAGE_KEY) then
     let* isFrozen := storage_get FROZEN_STORAGE_KEY in
     if truthy isFrozen then throw frozenError else ret tt
   else ret tt);;
  storage_put (ToString key) v.

Definition adminDelete (key : JsValue) : Async unit :=
  (if negb (strictEqString key FROZEN_STORAGE_KEY) then
     let* isFrozen := storage_get FROZEN_STORAGE_KEY in
     if truthy isFrozen then throw frozenError else ret tt
   else ret tt);;
  storage_delete (ToString key);;
  ret tt.

Definition adminSql (query : JsValue) : Async AdminSqlResponse :=
  fun w =>
    match sql w with
    | None => throw (ErrorObj "SQL not available - this DO uses KV storage backend") w
    | Some db =>
        (let* r := sql_exec db query in
         ret (mkSqlResponse (rows r) (length (rows r)) (columnNames r))) w
    end.

Definition adminGetAlarm : Async AdminAlarmResponse :=
  let* a := storage_getAlarm in
  ret (mkAlarmResponse a).

Definition adminSetAlarm (timestamp : Z) : Async unit :=
  storage_setAlarm timestamp.

Definition adminDeleteAlarm : Async unit :=
  storage_deleteAlarm.

(** The loop [for (const [key, value] of entries) data[key] = value]. *)
Definition collect (entries : list (string * JsValue)) : JsRecord :=
  fold_left (fun acc e => objSet acc e.1 e.2) entries [].

Definition adminExport : Async AdminExportResponse :=
  let* entries := storage_list in
  let data := collect entries in
  let* now := dateNow in
  ret (mkExportResponse data now (length entries)).

Definition adminImport (data : JsRecord) : Async unit :=
  let* isFrozen := storage_get FROZEN_STORAGE_KEY in
  if truthy isFrozen then throw frozenImportError
  else storage_putEntries data.

Definition adminFreeze : Async AdminFreezeResponse :=
  let* frozenAt := dateNow in
  storage_put FROZEN_STORAGE_KEY (JBool true);;
  storage_put FROZEN_AT_KEY (JString frozenAt);;
  ret (mkFreezeResponse true (Some (JString frozenAt))).

Definition adminUnfreeze : Async AdminFreezeResponse :=
  storage_delete FROZEN_STORAGE_KEY;;
  storage_delete FROZEN_AT_KEY;;
  ret (mkFreezeResponse false None).

Definition adminGetFreezeStatus : Async AdminFreezeResponse :=
  let* isFrozen := storage_get FROZEN_STORAGE_KEY in
  let* frozenAt := storage_get FROZEN_AT_KEY in
  ret (mkFreezeResponse (truthy isFrozen)
         (Some (if nullish frozenAt then JUndefined else frozenAt))).

(** ** Requests, responses and the router *)

(** A response: its status, its [Content-Type], and the value whose JSON
    text is the body. *)
Record Response : Type := mkResponse {
  status : Z;
  contentType : string;
  body : JsValue }.

(** [new Response(JSON.stringify(b), { status, headers: { "Content-Type":
    "application/json" } })] *)
Definition jsonResponse (st : Z) (b : JsValue) : Response :=
  mkResponse st "application/json" b.

(** [Response.json(b)] *)
Definition Response_json (b : JsValue) : Response := jsonResponse 200 b.

Definition errorBody (msg : string) : JsValue :=
  JObject [("error", JString msg)].

Definition successBody : JsValue := JObject [("success", JBool true)].

(** The operations' results as the objects handed to [Response.json]. *)
Definition optionalProp (name : string) (v : option JsValue) : JsRecord :=
  match v with Some x => [(name, x)] | None => [] end.

Definition json_of_list (r : AdminListResponse) : JsValue :=
  JObject (optionalProp "keys" (option_map (fun ks => JArray (map JString ks)) (keys r))
           ++ optionalProp "tables" (option_map JArray (tables r))).

Definition json_of_get (r : AdminGetResponse) : JsValue :=
  JObject [("value", value r)].

Definition json_of_export (r : AdminExportResponse) : JsValue :=
  JObject [("data", JObject (data r));
           ("exportedAt", JString (exportedAt r));
           ("keyCount", JNumber (Z.of_nat (keyCount r)))].

Definition json_of_alarm (r : AdminAlarmResponse) : JsValue :=
  JObject [("alarm", match alarm r with Some t => JNumber t | None => JNull end)].

Definition json_of_sql (r : AdminSqlResponse) : JsValue :=
  JObject [("result", JArray (map JObject (result r)));
           ("rowCount", JNumber (Z.of_nat (rowCount r)));
           ("columns", JArray (map JString (columns r)))].

Definition json_of_freeze (r : AdminFreezeResponse) : JsValue :=
  JObject (("frozen", JBool (frozen r)) :: optionalProp "frozenAt" (frozenAt r)).

(** [AdminHooksOptions]; an absent option is [None]. *)
Record AdminHooksOptions : Type := mkOptions {
  basePath : option string;
  requireAuth : option bool;
  adminKey : option string }.

(** A request as the router reads it: the method, the path of
    [new URL(request.url)], [url.searchParams.get("key")],
    [request.headers.get("X-Admin-Key")], and the outcome of
    [request.json()], which rejects with an [Error] (left, its message)
    or resolves to the parsed body. *)
Record Request : Type := mkRequest {
  method : string;
  pathname : string;
  searchKey : option string;
  xAdminKey : option string;
  jsonBody : string + JsValue }.

(** [s.startsWith(p)] *)
Definition startsWith (s p : string) : bool := String.prefix p s.

(** [s.slice(n)] for [n >= 0]. *)
Fixpoint slice (n : nat) (s : string) : string :=
  match n, s with
  | O, _ => s
  | S n', String _ s' => slice n' s'
  | S _, EmptyString => EmptyString
  end.

(** [s.split(sep)] for a one-character separator. *)
Fixpoint split (sep : ascii) (s : string) : list string :=
  match s with
  | EmptyString => [EmptyString]
  | String c s' =>
      if Ascii.eqb c sep then EmptyString :: split sep s'
      else match split sep s' with
           | [] => [String c EmptyString]
           | h :: t => String c h :: t
           end
  end.

(** [.filter(Boolean)] on strings keeps the non-empty ones. *)
Definition nonEmpty (s : string) : bool := negb (String.eqb s "").

(** The operation selector: ["/"] and the last non-empty segment of the
    path after the base path, or the empty string when there is none. *)
Definition operationOf (base path : string) : string :=
  let adminPath := slice (String.length base) path in
  let pathParts := List.filter nonEmpty (split "/" adminPath) in
  match last pathParts with
  | Some seg => "/" ++ seg
  | None => ""
  end.

(** [await request.json()] *)
Definition request_json (request : Request) : Async JsValue :=
  match jsonBody request with
  | inl msg => throw (ErrorObj msg)
  | inr v => ret v
  end.

(** [body.name] for the names the router reads ([key], [value], [query],
    [timestamp], [data]), none of which a prototype provides. *)
Definition getProp (v : JsValue) (name : string) : Async JsValue :=
  match v with
  | JNull =>
      throw (ErrorObj ("Cannot read properties of null (reading '" ++ name ++ "')"))
  | JUndefined =>
      throw (ErrorObj ("Cannot read properties of undefined (reading '" ++ name ++ "')"))
  | JObject props => ret (default JUndefined (recordGet props name))
  | _ => ret JUndefined
  end.

(** The own enumerable properties of an object ([Object.keys], and the
    entries [storage.put(entries)] writes); an array has its indices.  The
    properties below are stated for data that is an object. *)
Definition ownEntries (v : JsValue) : JsRecord :=
  match v with
  | JObject props => props
  | JArray items => imap (fun i x => (pretty i, x)) items
  | _ => []
  end.

(** The body of the [try] block.  Reading a property of a parsed body
    has no effect, so a property the source reads twice is read once. *)
Definition route (request : Request) (operation : string) : Async Response :=
  let on sel m := String.eqb operation sel && String.eqb (method request) m in
  if on "/list" "GET" then
    let* r := adminList in
    ret (Response_json (json_of_list r))
  else if on "/get" "GET" then
    match searchKey request with
    | Some key =>
        if String.eqb key "" then
          ret (jsonResponse 400 (errorBody "Missing key parameter"))
        else
          let* r := adminGet key in
          ret (Response_json (json_of_get r))
    | None => ret (jsonResponse 400 (errorBody "Missing key parameter"))
    end
  else if on "/put" "POST" then
    let* body := request_json request in
    let* key := getProp body "key" in
    if negb (truthy key) then
      ret (jsonResponse 400 (errorBody "Missing key in body"))
    else
      let* v := getProp body "value" in
      adminPut key v;;
      ret (Response_json successBody)
  else if on "/freeze" "PUT" then
    let* r := adminFreeze in
    ret (Response_json (json_of_freeze r))
  else if on "/freeze" "DELETE" then
    let* r := adminUnfreeze in
    ret (Response_json (json_of_freeze r))
  else if on "/freeze" "GET" then
    let* r := adminGetFreezeStatus in
    ret (Response_json (json_of_freeze r))
  else if on "/delete" "POST" then
    let* body := request_json request in
    let* key := getProp body "key" in
    if negb (truthy key) then
      ret (jsonResponse 400 (errorBody "Missing key in body"))
    else
      adminDelete key;;
      ret (Response_json successBody)
  else if on "/sql" "POST" then
    let* body := request_json request in
    let* query := getProp body "query" in
    if negb (truthy query) then
      ret (jsonResponse 400 (errorBody "Missing query in body"))
    else
      let* r := adminSql query in
      ret (Response_json (json_of_sql r))
  else if on "/alarm" "GET" then
    let* r := adminGetAlarm in
    ret (Response_json (json_of_alarm r))
  else if on "/alarm" "PUT" then
    let* body := request_json request in
    let* timestamp := getProp body "timestamp" in
    match timestamp with
    | JNumber t =>
        adminSetAlarm t;;
        ret (Response_json (JObject [("success", JBool true); ("alarm", JNumber t)]))
    | _ => ret (jsonResponse 400 (errorBody "Missing or invalid timestamp"))
    end
  else if on "/alarm" "DELETE" then
    adminDeleteAlarm;;
    ret (Response_json successBody)
  else if on "/export" "GET" then
    let* r := adminExport in
    ret (Response_json (json_of_export r))
  else if on "/import" "POST" then
    let* body := request_json request in
    let* d := getProp body "data" in
    if nullish d || negb (typeofObject d) then
      ret (jsonResponse 400 (errorBody "Missing or invalid data object"))
    else
      adminImport (ownEntries d);;
      ret (Response_json
             (JObject [("success", JBool true);
                       ("imported", JNumber (Z.of_nat (length (ownEntries d))))]))
  else
    ret (jsonResponse 404 (errorBody "Unknown admin endpoint")).

(** The [catch] clause: [error instanceof Error ? error.message :
    "Unknown error"]. *)
Definition messageOf (e : Thrown) : string :=
  match e with
  | ErrorObj message => message
  | ThrownValue _ => "Unknown error"
  end.

(** The authentication test of the router: [true] when the request is
    let through. *)
Definition authenticated (options : AdminHooksOptions) (request : Request) : bool :=
  if default false (requireAuth options) then
    let providedKey := default "" (xAdminKey request) in
    let expectedKey := default "" (adminKey options) in
    negb (negb (Nat.eqb (String.length providedKey) (String.length expectedKey))
          || negb (timingSafeEqual providedKey expectedKey))
  else true.

Definition unauthorized : Response := jsonResponse 401 (errorBody "Unauthorized").

(** The [try] block with its [catch] clause. *)
Definition dispatch (base : string) (request : Request)
  : World -> option Response * World :=
  fun w =>
    match route request (operationOf base (pathname request)) w with
    | (inr response, w') => (Some response, w')
    | (inl error, w') =>
        (Some (jsonResponse 500 (errorBody (messageOf error))), w')
    end.

(** [handleAdminRequest]: [None] is the [null] returned for a request
    that is not an admin request. *)
Definition handleAdminRequest (options : AdminHooksOptions) (request : Request)
  : World -> option Response * World :=
  fun w =>
    let base := default "/admin" (basePath options) in
    let path := pathname request in
    if negb (startsWith path base) then (None, w)
    else if negb (authenticated options request) then (Some unauthorized, w)
    else dispatch base request w.

(** The response of the default [fetch] for a request that is no admin
    request: status 200, the text itself as body. *)
Definition defaultResponse : Response :=
  mkResponse 200 "text/plain"
    (JString "Durable Object with admin hooks enabled. Override fetch() to add your logic.").

(** [fetch]: the admin response when there is one, the default response
    otherwise. *)
Definition fetch (options : AdminHooksOptions) (request : Request)
  : World -> Response * World :=
  fun w =>
    match handleAdminRequest options request w with
    | (Some adminResponse, w') => (adminResponse, w')
    | (None, w') => (defaultResponse, w')
    end.

(** *** Notions the properties are stated with *)

(** A fresh instance: nothing stored, no alarm, no call made yet. *)
Definition initialWorld (backend : option SqlDb) (now : string) : World :=
  mkWorld ∅ None backend now [].

(** The value the guard reads, and its test. *)
Definition frozenFlag (w : World) : JsValue :=
  default JUndefined (kv w !! FROZEN_STORAGE_KEY).

Definition isFrozen (w : World) : bool := truthy (frozenFlag w).

(** The two reserved keys of the freeze record. *)
Definition reservedKey (k : string) : bool :=
  String.eqb k FROZEN_STORAGE_KEY || String.eqb k FROZEN_AT_KEY.

(** Frozen-at is present exactly when frozen holds [true]. *)
Definition freezeInvariant (w : World) : Prop :=
  is_Some (kv w !! FROZEN_AT_KEY) <-> kv w !! FROZEN_STORAGE_KEY = Some (JBool true).

(** The same storage contents: entries, alarm and relational backend. *)
Definition sameStorage (w w' : World) : Prop :=
  kv w' = kv w /\ alarmAt w' = alarmAt w /\ sql w' = sql w.

(** A call of one admin operation with its arguments, keys being the
    strings the operations declare. *)
Inductive AdminCall : Type :=
| OpList
| OpGet (key : string)
| OpPut (key : string) (v : JsValue)
| OpDelete (key : string)
| OpSql (query : JsValue)
| OpGetAlarm
| OpSetAlarm (timestamp : Z)
| OpDeleteAlarm
| OpExport
| OpImport (data : JsRecord)
| OpFreeze
| OpUnfreeze
| OpGetFreezeStatus.

(** The world a call leaves, whether it returns or throws. *)
Definition after (c : AdminCall) (w : World) : World :=
  match c with
  | OpList => (adminList w).2
  | OpGet key => (adminGet key w).2
  | OpPut key v => (adminPut (JString key) v w).2
  | OpDelete key => (adminDelete (JString key) w).2
  | OpSql query => (adminSql query w).2
  | OpGetAlarm => (adminGetAlarm w).2
  | OpSetAlarm timestamp => (adminSetAlarm timestamp w).2
  | OpDeleteAlarm => (adminDeleteAlarm w).2
  | OpExport => (adminExport w).2
  | OpImport data => (adminImport data w).2
  | OpFreeze => (adminFreeze w).2
  | OpUnfreeze => (adminUnfreeze w).2
  | OpGetFreezeStatus => (adminGetFreezeStatus w).2
  end.

(** The calls that are asked to write the freeze record through the
    generic operations: a put on a reserved key, a delete of the frozen
    flag, an import whose data names a reserved key. *)
Definition writesReserved (c : AdminCall) : bool :=
  match c with
  | OpPut key _ => reservedKey key
  | OpDelete key => String.eqb key FROZEN_STORAGE_KEY
  | OpImport data => existsb (fun e => reservedKey e.1) data
  | _ => false
  end.

(** The (selector, method) pairs the router serves. *)
Definition routeTable : list (string * string) :=
  [ ("/list", "GET"); ("/get", "GET"); ("/put", "POST");
    ("/freeze", "PUT"); ("/freeze", "DELETE"); ("/freeze", "GET");
    ("/delete", "POST"); ("/sql", "POST");
    ("/alarm", "GET"); ("/alarm", "PUT"); ("/alarm", "DELETE");
    ("/export", "GET"); ("/import", "POST") ].

Definition registered (operation m : string) : bool :=
  existsb (fun e => String.eqb operation e.1 && String.eqb m e.2) routeTable.

(** The same request sent to another path. *)
Definition withPath (request : Request) (path : string) : Request :=
  mkRequest (method request) path (searchKey request) (xAdminKey request)
    (jsonBody request).

(** A path segment: not empty, no slash. *)
Fixpoint noSlash (s : string) : bool :=
  match s with
  | EmptyString => true
  | String c s' => negb (Ascii.eqb c "/") && noSlash s'
  end.

Definition segment (s : string) : bool := nonEmpty s && noSlash s.

(** The calls that only read: get, list on a key-value backend, export,
    the alarm query and the freeze status. *)
Definition readOnlyCall (c : AdminCall) : bool :=
  match c with
  | OpGet _ | OpList | OpExport | OpGetAlarm | OpGetFreezeStatus => true
  | _ => false
  end.

(** [w'] is [w] after storage calls that all only read. *)
Definition onlyRead (w w' : World) : Prop :=
  sameStorage w w' /\
  exists made : list StorageCall,
    calls w' = (calls w ++ made)%list /\ forallb (fun c => negb (mutating c)) made = true.

(** The (selector, method) pairs whose handler starts by reading the
    request body. *)
Definition readsBody (operation m : string) : bool :=
  existsb (fun e => String.eqb operation e.1 && String.eqb m e.2)
    [ ("/put", "POST"); ("/delete", "POST"); ("/sql", "POST");
      ("/alarm", "PUT"); ("/import", "POST") ].

End AdminHooks.

(** ** A key-value instance and sample requests *)

(** An engine for instances used as examples: every query fails. *)
Definition noTables (query : JsValue) (db : unit)
  : (Thrown + SqlStorageResult) * unit :=
  (inl (ErrorObj "no such table"), db).

Definition sampleNow : string := "2026-01-05T10:00:00.000Z".

Definition freshWorld : World (SqlDb := unit) := initialWorld None sampleNow.

Definition frozenWorld : World (SqlDb := unit) := (adminFreeze freshWorld).2.

Definition secured : AdminHooksOptions :=
  mkOptions None (Some true) (Some "my-secret-key").

Definition unsecured : AdminHooksOptions := mkOptions None None None.

Definition putRequest (key v : JsValue) : Request :=
  mkRequest "POST" "/admin/put" None None
    (inr (JObject [("key", key); ("value", v)])).

Definition keyless : AdminHooksOptions := mkOptions None (Some true) None.

(** A request without body: [request.json()] rejects. *)
Definition bodyless (m path : string) (key credential : option string) : Request :=
  mkRequest m path key credential (inl "Unexpected end of JSON input").

(** An engine with one table: every query returns the one row naming it. *)
Definition oneTable (query : JsValue) (db : unit)
  : (Thrown + SqlStorageResult) * unit :=
  (inr (mkSqlResult [[("name", JString "users")]] ["name"]), db).

Definition sqlWorld : World (SqlDb := unit) := initialWorld (Some tt) sampleNow.

(** An engine that throws a value that is no [Error]. *)
Definition throwsValue (query : JsValue) (db : unit)
  : (Thrown + SqlStorageResult) * unit :=
  (inl (ThrownValue (JString "busy")), db).

Definition sqlRequest (query : JsValue) : Request :=
  mkRequest "POST" "/admin/sql" None None (inr (JObject [("query", query)])).

(** An instance that stores one entry under [__proto__]. *)
Definition protoWorld : World (SqlDb := unit) :=
  (adminPut (JString "__proto__") (JNumber 1) freshWorld).2.

Example timingSafeEqual_same : timingSafeEqual "s3cret" "s3cret" = true.
Proof. reflexivity. Qed.

Example timingSafeEqual_diff : timingSafeEqual "s3cret" "s3creT" = false.
Proof. reflexivity. Qed.

Example put_then_get :
  (handleAdminRequest noTables unsecured
     (mkRequest "GET" "/admin/get" (Some "a") None (inl "Unexpected end of JSON input"))
     (handleAdminRequest noTables unsecured (putRequest (JString "a") (JNumber 1)) freshWorld).2).1
  = Some (Response_json (JObject [("value", JNumber 1)])).
Proof. vm_compute. reflexivity. Qed.

Example put_frozen :
  (handleAdminRequest noTables unsecured (putRequest (JString "a") (JNumber 1)) frozenWorld).1
  = Some (jsonResponse 500 (errorBody "Instance is frozen. Unfreeze before making changes.")).
Proof. vm_compute. reflexivity. Qed.

(** ** The comparator decides equality *)

Lemma charCodeAt_head (c : ascii) (s : string) :
  charCodeAt (String c s) 0 = Some (Z.of_N (N_of_ascii c)).
Proof. reflexivity. Qed.

Lemma charCodeAt_tail (c : ascii) (s : string) (i : nat) :
  charCodeAt (String c s) (S i) = charCodeAt s i.
Proof. reflexivity. Qed.

Lemma lor_lxor_zero (r x y : Z) :
  Z.lor r (Z.lxor x y) = 0 <-> r = 0 /\ x = y.
Proof.
  rewrite Z.lor_eq_0_iff. split.
  - intros [Hr Hx]. split; [exact Hr | now apply Z.lxor_eq].
  - intros [Hr ->]. split; [exact Hr | apply Z.lxor_nilpotent].
Qed.

(** The accumulator ends at zero exactly when it started at zero and no
    visited index showed a difference. *)
Lemma timingSafeEqual_loop_zero (a b : string) (fuel : nat) :
  forall (i : nat) (r : Z),
    timingSafeEqual_loop a b i fuel r = 0 <->
    r = 0 /\
    forall j : nat, (i <= j < i + fuel)%nat ->
      toInt32 (charCodeAt a j) = toInt32 (charCodeAt b j).
Proof.
  induction fuel as [|fuel IH]; intros i r; cbn [timingSafeEqual_loop].
  - split; [intros ->; split; [reflexivity | intros j Hj; lia] | tauto].
  - rewrite IH, lor_lxor_zero. split.
    + intros [[Hr Hi] Hrest]. split; [exact Hr |].
      intros j Hj. destruct (Nat.eq_dec j i) as [-> | Hne]; [exact Hi |].
      apply Hrest. lia.
    + intros [Hr Hall]. repeat split; [exact Hr | apply Hall; lia |].
      intros j Hj. apply Hall. lia.
Qed.

Lemma codes_agree_eq (a : string) :
  forall b : string,
    String.length a = String.length b ->
    (forall j : nat, (j < String.length a)%nat ->
       toInt32 (charCodeAt a j) = toInt32 (charCodeAt b j)) ->
    a = b.
Proof.
  induction a as [|c a IH]; intros [|d b] Hlen Hall; try discriminate.
  - reflexivity.
  - cbn in Hlen. injection Hlen as Hlen.
    assert (Hcd : c = d).
    { specialize (Hall 0%nat ltac:(cbn; lia)).
      rewrite !charCodeAt_head in Hall. cbn in Hall.
      apply N2Z.inj in Hall.
      rewrite <- (ascii_N_embedding c), <- (ascii_N_embedding d).
      now rewrite Hall. }
    subst d. f_equal. apply IH; [exact Hlen |].
    intros j Hj. specialize (Hall (S j) ltac:(cbn; lia)).
    now rewrite !charCodeAt_tail in Hall.
Qed.

Lemma timingSafeEqual_spec (a b : string) :
  timingSafeEqual a b = true <-> a = b.
Proof.
  unfold timingSafeEqual.
  destruct (Nat.eqb_spec (String.length a) (String.length b)) as [Hlen | Hlen];
    cbn [negb].
  - rewrite Z.eqb_eq, timingSafeEqual_loop_zero. split.
    + intros [_ Hall]. apply codes_agree_eq; [exact Hlen |].
      intros j Hj. apply Hall. lia.
    + intros ->. split; [reflexivity | reflexivity].
  - split; [discriminate | intros ->; contradiction].
Qed.

Lemma timingSafeEqual_false (a b : string) :
  timingSafeEqual a b = false <-> a <> b.
Proof.
  rewrite <- timingSafeEqual_spec. destruct (timingSafeEqual a b); split;
    congruence.
Qed.

Section Properties.

Context {SqlDb : Type}.
Variable sqlExec : JsValue -> SqlDb -> (Thrown + SqlStorageResult) * SqlDb.

Local Abbreviation World := (@World SqlDb).

Notation "'let*' x ':=' m 'in' k" := (bind m (fun x => k))
  (at level 10, x name, m at level 100, k at level 200).
Notation "m ';;' k" := (bind m (fun _ => k))
  (at level 100, k at level 200, right associativity).

(** ** Statuses of the router *)

(** Splits on the term a [match] or [if] of the hypothesis inspects. *)
Ltac split_match H :=
  match type of H with
  | context [if ?b then _ else _] => destruct b eqn:?
  | context [match ?x with _ => _ end] => destruct x eqn:?
  end.

Ltac run_async :=
  unfold adminList, adminGet, adminPut, adminDelete, adminSql, adminGetAlarm,
    adminSetAlarm, adminDeleteAlarm, adminExport, adminImport, adminFreeze,
    adminUnfreeze, adminGetFreezeStatus, request_json, getProp, sql_exec,
    storage_get, storage_put, storage_putEntries, storage_delete, storage_list,
    storage_getAlarm, storage_setAlarm, storage_deleteAlarm, dateNow,
    bind, ret, throw in *.

Lemma route_status (request : Request) (operation : string) (w w' : World)
    (response : Response) :
  route sqlExec request operation w = (inr response, w') ->
  status response = 200 \/ status response = 400 \/ status response = 404.
Proof.
  unfold route. intros H.
  repeat (split_match H;
          [ run_async; repeat split_match H; simplify_eq; cbn; tauto | ]).
  run_async. simplify_eq. cbn. tauto.
Qed.

Lemma dispatch_status (base : string) (request : Request) (w w' : World)
    (response : Response) :
  dispatch sqlExec base request w = (Some response, w') ->
  status response = 200 \/ status response = 400 \/ status response = 404
  \/ status response = 500.
Proof.
  unfold dispatch. intros H.
  destruct (route sqlExec request _ w) as [[e | r] w1] eqn:Hroute.
  - injection H as <- <-. cbn. tauto.
  - injection H as <- <-. apply route_status in Hroute. tauto.
Qed.

Lemma dispatch_responds (base : string) (request : Request) (w : World) :
  exists response w', dispatch sqlExec base request w = (Some response, w').
Proof.
  unfold dispatch. destruct (route sqlExec request _ w) as [[e | r] w1]; eauto.
Qed.

(** ** Authentication *)

Lemma authenticated_spec (options : AdminHooksOptions) (request : Request) :
  requireAuth options = Some true ->
  (authenticated options request = true <->
   default "" (xAdminKey request) = default "" (adminKey options)).
Proof.
  intros Hreq. unfold authenticated. rewrite Hreq. cbn [from_option id].
  set (C := default "" (xAdminKey request)).
  set (K := default "" (adminKey options)).
  rewrite negb_true_iff, orb_false_iff, !negb_false_iff, timingSafeEqual_spec.
  split; [tauto |]. intros ->. split; [apply Nat.eqb_refl | reflexivity].
Qed.

(** C1: with [requireAuth] set and admin key [K] configured, a request on
    the admin path with credential [C] (the [X-Admin-Key] header, the
    empty string when absent) goes on to the dispatch exactly when [C]
    equals [K]; otherwise the answer is 401 with body
    [{error: "Unauthorized"}] and the world, its record of storage calls
    included, is the one the request found.  The dispatch itself never
    answers 401. *)
Theorem C1_authentication (options : AdminHooksOptions) (request : Request)
    (w : World) (K : string) :
  requireAuth options = Some true ->
  adminKey options = Some K ->
  startsWith (pathname request) (default "/admin" (basePath options)) = true ->
  let C := default "" (xAdminKey request) in
  let base := default "/admin" (basePath options) in
  (authenticated options request = true <-> C = K) /\
  (C = K ->
   handleAdminRequest sqlExec options request w = dispatch sqlExec base request w) /\
  (C <> K ->
   handleAdminRequest sqlExec options request w
   = (Some (jsonResponse 401 (errorBody "Unauthorized")), w)) /\
  (forall response w',
     dispatch sqlExec base request w = (Some response, w') ->
     status response <> 401).
Proof.
  intros Hreq Hkey Hpath C base.
  pose proof (authenticated_spec options request Hreq) as Hauth.
  rewrite Hkey in Hauth. cbn [from_option id] in Hauth. fold C in Hauth.
  split; [exact Hauth |].
  unfold handleAdminRequest. fold base. fold base in Hpath. rewrite Hpath.
  cbn [negb]. repeat split.
  - intros HCK. apply Hauth in HCK. now rewrite HCK.
  - intros HCK. destruct (authenticated options request) eqn:Ha.
    + exfalso. apply HCK. now apply Hauth.
    + reflexivity.
  - intros response w' Hd. apply dispatch_status in Hd. lia.
Qed.

(** C9: with [requireAuth] set, no [adminKey] configured and no
    [X-Admin-Key] header sent, the request passes authentication: both
    strings default to the empty string, and the answer is that of the
    dispatch, never 401. *)
Theorem C9_unset_key_admits_missing_header (options : AdminHooksOptions)
    (request : Request) (w : World) :
  requireAuth options = Some true ->
  adminKey options = None ->
  xAdminKey request = None ->
  startsWith (pathname request) (default "/admin" (basePath options)) = true ->
  authenticated options request = true /\
  handleAdminRequest sqlExec options request w
  = dispatch sqlExec (default "/admin" (basePath options)) request w /\
  exists response w',
    handleAdminRequest sqlExec options request w = (Some response, w') /\
    status response <> 401.
Proof.
  intros Hreq Hkey Hhdr Hpath.
  assert (Ha : authenticated options request = true).
  { apply authenticated_spec; [exact Hreq |]. now rewrite Hkey, Hhdr. }
  assert (Hh : handleAdminRequest sqlExec options request w
               = dispatch sqlExec (default "/admin" (basePath options)) request w).
  { unfold handleAdminRequest. now rewrite Hpath, Ha. }
  repeat split; [exact Ha | exact Hh |].
  destruct (dispatch_responds (default "/admin" (basePath options)) request w)
    as (response & w' & Hd).
  exists response, w'. rewrite Hh. split; [exact Hd |].
  apply dispatch_status in Hd. lia.
Qed.

(** ** The freeze guard *)

Lemma strictEqString_JString (k s : string) :
  strictEqString (JString k) s = false <-> k <> s.
Proof.
  cbn. destruct (String.eqb_spec k s); split; congruence.
Qed.

Lemma adminPut_frozen (w : World) (key v : JsValue) :
  strictEqString key FROZEN_STORAGE_KEY = false ->
  isFrozen w = true ->
  adminPut key v w = (inl frozenError, logCall (CallGet FROZEN_STORAGE_KEY) w).
Proof.
  intros Hkey Hfrozen. unfold adminPut, bind, storage_get. rewrite Hkey.
  cbn [negb]. unfold isFrozen, frozenFlag in Hfrozen. now rewrite Hfrozen.
Qed.

Lemma storage_put_defined (w : World) (k : string) (v : JsValue) :
  v <> JUndefined ->
  storage_put k v w
  = (inr tt, logCall (CallPut k v) (setKv (<[k := v]> (kv w)) w)).
Proof. intros Hv. destruct v; try reflexivity. contradiction. Qed.

Lemma storage_put_outcome (w : World) (k : string) (v : JsValue) :
  (storage_put k v w).1
  = (if isUndefined v then inl undefinedValueError else inr tt).
Proof. now destruct v. Qed.

Lemma storage_put_calls (w : World) (k : string) (v : JsValue) :
  calls (storage_put k v w).2 = (calls w ++ [CallPut k v])%list.
Proof. now destruct v. Qed.

Lemma storage_put_frame (w : World) (k : string) (v : JsValue) :
  (forall k' : string, k' <> k -> kv (storage_put k v w).2 !! k' = kv w !! k') /\
  alarmAt (storage_put k v w).2 = alarmAt w /\
  sql (storage_put k v w).2 = sql w.
Proof.
  destruct v; cbn; repeat split; intros k' Hne;
    try reflexivity; now apply lookup_insert_ne.
Qed.

(** The entries a put leaves: nothing changes for [undefined]. *)
Lemma storage_put_kv (w : World) (k : string) (v : JsValue) :
  kv (storage_put k v w).2
  = (if isUndefined v then kv w else <[k := v]> (kv w)).
Proof. now destruct v. Qed.

(** Past the guard, [adminPut] is the call of [storage.put]. *)
Lemma adminPut_unfrozen_call (w : World) (key v : JsValue) :
  strictEqString key FROZEN_STORAGE_KEY = false ->
  isFrozen w = false ->
  adminPut key v w
  = storage_put (ToString key) v (logCall (CallGet FROZEN_STORAGE_KEY) w).
Proof.
  intros Hkey Hfrozen. unfold adminPut, bind, storage_get. rewrite Hkey.
  cbn [negb]. unfold isFrozen, frozenFlag in Hfrozen. now rewrite Hfrozen.
Qed.

Lemma adminPut_flag_call (w : World) (v : JsValue) :
  adminPut (JString FROZEN_STORAGE_KEY) v w = storage_put FROZEN_STORAGE_KEY v w.
Proof. unfold adminPut, bind. cbn. now destruct (storage_put _ v w) as [[e | []] w']. Qed.

Lemma adminPut_unfrozen (w : World) (key v : JsValue) :
  strictEqString key FROZEN_STORAGE_KEY = false ->
  isFrozen w = false ->
  v <> JUndefined ->
  adminPut key v w
  = (inr tt,
     logCall (CallPut (ToString key) v)
       (setKv (<[ToString key := v]> (kv w))
          (logCall (CallGet FROZEN_STORAGE_KEY) w))).
Proof.
  intros Hkey Hfrozen Hv. rewrite adminPut_unfrozen_call by assumption.
  now rewrite storage_put_defined.
Qed.

Lemma adminPut_flag (w : World) (v : JsValue) :
  v <> JUndefined ->
  adminPut (JString FROZEN_STORAGE_KEY) v w
  = (inr tt,
     logCall (CallPut FROZEN_STORAGE_KEY v)
       (setKv (<[FROZEN_STORAGE_KEY := v]> (kv w)) w)).
Proof.
  intros Hv. rewrite adminPut_flag_call. now apply storage_put_defined.
Qed.

Lemma frozenError_not_undefinedValueError : undefinedValueError <> frozenError.
Proof. discriminate. Qed.

Lemma adminDelete_frozen (w : World) (key : JsValue) :
  strictEqString key FROZEN_STORAGE_KEY = false ->
  isFrozen w = true ->
  adminDelete key w = (inl frozenError, logCall (CallGet FROZEN_STORAGE_KEY) w).
Proof.
  intros Hkey Hfrozen. unfold adminDelete, bind, storage_get. rewrite Hkey.
  cbn [negb]. unfold isFrozen, frozenFlag in Hfrozen. now rewrite Hfrozen.
Qed.

Lemma adminDelete_unfrozen (w : World) (key : JsValue) :
  strictEqString key FROZEN_STORAGE_KEY = false ->
  isFrozen w = false ->
  adminDelete key w
  = (inr tt,
     logCall (CallDelete (ToString key))
       (setKv (delete (ToString key) (kv w))
          (logCall (CallGet FROZEN_STORAGE_KEY) w))).
Proof.
  intros Hkey Hfrozen. unfold adminDelete, bind, storage_get. rewrite Hkey.
  cbn [negb]. unfold isFrozen, frozenFlag in Hfrozen. now rewrite Hfrozen.
Qed.

Lemma adminDelete_flag (w : World) :
  adminDelete (JString FROZEN_STORAGE_KEY) w
  = (inr tt,
     logCall (CallDelete FROZEN_STORAGE_KEY)
       (setKv (delete FROZEN_STORAGE_KEY (kv w)) w)).
Proof. reflexivity. Qed.

Lemma adminImport_frozen (w : World) (entries : JsRecord) :
  isFrozen w = true ->
  adminImport entries w
  = (inl frozenImportError, logCall (CallGet FROZEN_STORAGE_KEY) w).
Proof.
  intros Hfrozen. unfold adminImport, bind, storage_get.
  unfold isFrozen, frozenFlag in Hfrozen. now rewrite Hfrozen.
Qed.

Lemma adminImport_unfrozen (w : World) (entries : JsRecord) :
  isFrozen w = false ->
  adminImport entries w
  = (inr tt,
     logCall (CallPutEntries entries)
       (setKv (putAll entries (kv w)) (logCall (CallGet FROZEN_STORAGE_KEY) w))).
Proof.
  intros Hfrozen. unfold adminImport, bind, storage_get.
  unfold isFrozen, frozenFlag in Hfrozen. now rewrite Hfrozen.
Qed.

(** C2: while the frozen flag is truthy, [adminPut(k, v)] and
    [adminDelete(k)] for [k] other than the frozen-flag key, and
    [adminImport(data)], throw the frozen error; the only storage call
    made is the read of the flag, so the entries, the alarm and the
    relational backend are what they were and no write or delete was
    issued. *)
Theorem C2_frozen_blocks_mutation (w : World) (k : string) (v : JsValue)
    (entries : JsRecord) :
  isFrozen w = true ->
  k <> FROZEN_STORAGE_KEY ->
  let w' := logCall (CallGet FROZEN_STORAGE_KEY) w in
  adminPut (JString k) v w = (inl frozenError, w') /\
  adminDelete (JString k) w = (inl frozenError, w') /\
  adminImport entries w = (inl frozenImportError, w') /\
  sameStorage w w' /\
  calls w' = (calls w ++ [CallGet FROZEN_STORAGE_KEY])%list /\
  mutating (CallGet FROZEN_STORAGE_KEY) = false.
Proof.
  intros Hfrozen Hk w'. apply strictEqString_JString in Hk.
  repeat split.
  - now apply adminPut_frozen.
  - now apply adminDelete_frozen.
  - now apply adminImport_frozen.
Qed.

(** C4, as the code has it: the frozen-flag key is exempt from the guard.
    In every world, frozen ones included, [adminPut] and [adminDelete] on
    it never throw the frozen error: they make no read of the flag, their
    one storage call is the write itself, the delete returns, and the put
    returns and stores the value unless the value is [undefined], which the
    binding rejects.  The frozen-at key is guarded like any other key. *)
Theorem C4_flag_key_exempt (w : World) (v : JsValue) :
  (adminPut (JString FROZEN_STORAGE_KEY) v w).1 <> inl frozenError /\
  (adminPut (JString FROZEN_STORAGE_KEY) v w).1
  = (if isUndefined v then inl undefinedValueError else inr tt) /\
  calls (adminPut (JString FROZEN_STORAGE_KEY) v w).2
  = (calls w ++ [CallPut FROZEN_STORAGE_KEY v])%list /\
  (v <> JUndefined ->
   adminPut (JString FROZEN_STORAGE_KEY) v w
   = (inr tt,
      logCall (CallPut FROZEN_STORAGE_KEY v)
        (setKv (<[FROZEN_STORAGE_KEY := v]> (kv w)) w))) /\
  adminDelete (JString FROZEN_STORAGE_KEY) w
  = (inr tt,
     logCall (CallDelete FROZEN_STORAGE_KEY)
       (setKv (delete FROZEN_STORAGE_KEY (kv w)) w)) /\
  (adminPut (JString FROZEN_AT_KEY) v w).1
  = (if isFrozen w then inl frozenError
     else if isUndefined v then inl undefinedValueError else inr tt) /\
  (adminDelete (JString FROZEN_AT_KEY) w).1
  = (if isFrozen w then inl frozenError else inr tt).
Proof.
  assert (Hout : (adminPut (JString FROZEN_STORAGE_KEY) v w).1
                 = (if isUndefined v then inl undefinedValueError else inr tt)).
  { rewrite adminPut_flag_call. apply storage_put_outcome. }
  split; [rewrite Hout; destruct (isUndefined v); discriminate |].
  split; [exact Hout |].
  split; [rewrite adminPut_flag_call; apply storage_put_calls |].
  split; [apply adminPut_flag |]. split; [apply adminDelete_flag |].
  assert (Hat : strictEqString (JString FROZEN_AT_KEY) FROZEN_STORAGE_KEY = false)
    by reflexivity.
  destruct (isFrozen w) eqn:Hfrozen.
  - now rewrite adminPut_frozen, adminDelete_frozen.
  - rewrite adminPut_unfrozen_call, adminDelete_unfrozen by assumption.
    split; [apply storage_put_outcome | reflexivity].
Qed.

(** C5, as the code and the storage binding have it: when the frozen flag
    is not truthy, [adminPut(k, v)] with [v] other than [undefined]
    returns, and [adminGet(k)] run next returns [{value: v}];
    [adminPut(k, undefined)] throws the binding's [TypeError] and leaves
    the entries as they were. *)
Theorem C5_put_then_get (w : World) (k : string) (v : JsValue) :
  isFrozen w = false ->
  (v <> JUndefined ->
   exists w',
     adminPut (JString k) v w = (inr tt, w') /\
     (adminGet k w').1 = inr (mkGetResponse v)) /\
  (adminPut (JString k) JUndefined w).1 = inl undefinedValueError /\
  kv (adminPut (JString k) JUndefined w).2 = kv w.
Proof.
  intros Hfrozen.
  destruct (String.eqb_spec k FROZEN_STORAGE_KEY) as [-> | Hk].
  - split; [| split; reflexivity].
    intros Hv. eexists. split; [now apply adminPut_flag |].
    unfold adminGet, bind, storage_get, ret. cbn.
    now rewrite lookup_insert_eq.
  - apply strictEqString_JString in Hk.
    split; [| rewrite adminPut_unfrozen_call by assumption; split; reflexivity].
    intros Hv. eexists. split; [now apply adminPut_unfrozen |].
    unfold adminGet, bind, storage_get, ret. cbn.
    now rewrite lookup_insert_eq.
Qed.

(** ** The freeze record *)

Lemma reservedKey_false (k : string) :
  reservedKey k = false <-> k <> FROZEN_STORAGE_KEY /\ k <> FROZEN_AT_KEY.
Proof.
  unfold reservedKey. rewrite orb_false_iff.
  destruct (String.eqb_spec k FROZEN_STORAGE_KEY),
    (String.eqb_spec k FROZEN_AT_KEY); split; intros [? ?]; split; congruence.
Qed.

Lemma putAll_lookup_other (entries : JsRecord) (k : string) :
  forall m : gmap string JsValue,
    existsb (fun e => String.eqb e.1 k) entries = false ->
    putAll entries m !! k = m !! k.
Proof.
  unfold putAll.
  induction entries as [|[k' v'] entries IH]; intros m Hnot; cbn in *.
  - reflexivity.
  - apply orb_false_iff in Hnot as [Hk Hrest].
    rewrite IH by exact Hrest.
    apply lookup_insert_ne. now apply String.eqb_neq in Hk.
Qed.

Lemma no_reserved_entry (entries : JsRecord) (k : string) :
  reservedKey k = true ->
  existsb (fun e => reservedKey e.1) entries = false ->
  existsb (fun e => String.eqb e.1 k) entries = false.
Proof.
  intros Hk. induction entries as [|[k' v'] entries IH]; cbn; [reflexivity |].
  rewrite !orb_false_iff. intros [Hk' Hrest]. split; [| now apply IH].
  destruct (String.eqb_spec k' k) as [-> | _]; [congruence | reflexivity].
Qed.

(** The invariant only looks at the two reserved keys. *)
Lemma freezeInvariant_same_record (w w' : World) :
  kv w' !! FROZEN_STORAGE_KEY = kv w !! FROZEN_STORAGE_KEY ->
  kv w' !! FROZEN_AT_KEY = kv w !! FROZEN_AT_KEY ->
  freezeInvariant w -> freezeInvariant w'.
Proof. unfold freezeInvariant. now intros -> ->. Qed.

Lemma frozen_at_differs : FROZEN_AT_KEY <> FROZEN_STORAGE_KEY.
Proof. discriminate. Qed.

Lemma not_frozen_not_true (w : World) :
  isFrozen w = false -> kv w !! FROZEN_STORAGE_KEY <> Some (JBool true).
Proof.
  unfold isFrozen, frozenFlag. intros Hf Heq. rewrite Heq in Hf. discriminate.
Qed.

Lemma adminFreeze_world (w : World) :
  adminFreeze w
  = (inr (mkFreezeResponse true (Some (JString (clock w)))),
     logCall (CallPut FROZEN_AT_KEY (JString (clock w)))
       (setKv (<[FROZEN_AT_KEY := JString (clock w)]>
                 (<[FROZEN_STORAGE_KEY := JBool true]> (kv w)))
          (logCall (CallPut FROZEN_STORAGE_KEY (JBool true))
             (setKv (<[FROZEN_STORAGE_KEY := JBool true]> (kv w)) w)))).
Proof. reflexivity. Qed.

Lemma read_only_kv (c : AdminCall) (w : World) :
  match c with
  | OpList | OpGet _ | OpSql _ | OpGetAlarm | OpSetAlarm _ | OpDeleteAlarm
  | OpExport | OpGetFreezeStatus => kv (after sqlExec c w) = kv w
  | _ => True
  end.
Proof.
  destruct c; cbn [after]; try exact I;
    unfold adminList, adminGet, adminSql, adminGetAlarm, adminSetAlarm,
      adminDeleteAlarm, adminExport, adminGetFreezeStatus, sql_exec, bind,
      throw;
    try reflexivity.
  - destruct (sql w) as [db|]; cbn; [| reflexivity].
    destruct (sqlExec _ db) as [[e | r] db']; reflexivity.
  - destruct (sql w) as [db|]; cbn; [| reflexivity].
    destruct (sqlExec _ db) as [[e | r] db']; reflexivity.
  - unfold storage_setAlarm. now destruct (timestamp <=? 0).
Qed.

Lemma freezeInvariant_initial (backend : option SqlDb) (now : string) :
  freezeInvariant (initialWorld backend now).
Proof.
  unfold freezeInvariant, initialWorld. cbn.
  rewrite !lookup_empty. split; [intros [x Hx] |]; discriminate.
Qed.

(** C3, as the code has it: the invariant "frozen-at is present exactly
    when frozen holds [true]" holds in a fresh instance and is preserved by
    [adminFreeze], [adminUnfreeze], the read-only, alarm and SQL
    operations, [adminPut] on a string key other than the two reserved
    keys, [adminDelete] on a string key other than the frozen-flag key, and
    [adminImport] of data that names no reserved key. *)
Theorem C3_freeze_invariant :
  (forall (backend : option SqlDb) (now : string),
     freezeInvariant (initialWorld backend now)) /\
  (forall (c : AdminCall) (w : World),
     writesReserved c = false ->
     freezeInvariant w ->
     freezeInvariant (after sqlExec c w)).
Proof.
  split; [exact freezeInvariant_initial |].
  - intros c w Hc Hinv.
    pose proof (read_only_kv c w) as Hro.
    destruct c; cbn [writesReserved] in Hc;
      try (apply (freezeInvariant_same_record w); [now rewrite Hro .. | exact Hinv]);
      cbn [after].
    + (* put *)
      apply reservedKey_false in Hc as [Hk1 Hk2].
      assert (Hs : strictEqString (JString key) FROZEN_STORAGE_KEY = false)
        by now apply strictEqString_JString.
      destruct (isFrozen w) eqn:Hf.
      * rewrite adminPut_frozen by assumption. exact Hinv.
      * rewrite adminPut_unfrozen_call by assumption.
        apply (freezeInvariant_same_record w); [| | exact Hinv];
          rewrite (proj1 (storage_put_frame _ key v)) by congruence;
          reflexivity.
    + (* delete *)
      assert (Hs : strictEqString (JString key) FROZEN_STORAGE_KEY = false)
        by exact Hc.
      destruct (isFrozen w) eqn:Hf.
      * rewrite adminDelete_frozen by assumption. exact Hinv.
      * rewrite adminDelete_unfrozen by assumption.
        pose proof (not_frozen_not_true w Hf) as Hnt.
        unfold freezeInvariant in *. cbn.
        assert (Hat : kv w !! FROZEN_AT_KEY = None).
        { destruct (kv w !! FROZEN_AT_KEY) eqn:E; [| reflexivity].
          exfalso. apply Hnt, Hinv. eauto. }
        split.
        -- intros [x Hx]. apply lookup_delete_Some in Hx as [_ Hx]. congruence.
        -- intros Hx. apply lookup_delete_Some in Hx as [_ Hx]. congruence.
    + (* import *)
      destruct (isFrozen w) eqn:Hf.
      * rewrite adminImport_frozen by assumption. exact Hinv.
      * rewrite adminImport_unfrozen by assumption.
        apply (freezeInvariant_same_record w); [| | exact Hinv]; cbn;
          apply putAll_lookup_other;
          (apply no_reserved_entry; [reflexivity | exact Hc]).
    + (* freeze *)
      rewrite adminFreeze_world. unfold freezeInvariant. cbn.
      rewrite lookup_insert_eq, lookup_insert_ne by discriminate.
      rewrite lookup_insert_eq. split; eauto.
    + (* unfreeze *)
      unfold freezeInvariant, adminUnfreeze, bind, storage_delete, ret. cbn.
      rewrite lookup_delete_eq, lookup_delete_ne by discriminate.
      rewrite lookup_delete_eq. split; [intros [x Hx] |]; discriminate.
Qed.

(** ** Export and import *)

Lemma recordGet_absent (props : JsRecord) (k : string) :
  k ∉ props.*1 -> recordGet props k = None.
Proof.
  induction props as [|[k' v'] props IH]; cbn; [reflexivity |].
  rewrite not_elem_of_cons. intros [Hne Hrest].
  destruct (String.eqb_spec k' k); [congruence | now apply IH].
Qed.

Lemma recordGet_list_to_map (props : JsRecord) (k : string) :
  recordGet props k = (list_to_map props : gmap string JsValue) !! k.
Proof.
  induction props as [|[k' v'] props IH]; cbn.
  - now rewrite lookup_empty.
  - destruct (String.eqb_spec k' k) as [-> | Hne].
    + now rewrite lookup_insert_eq.
    + now rewrite lookup_insert_ne.
Qed.

(** On entries with distinct keys the export loop appends every entry but
    one under [__proto__]. *)
Lemma collect_from (entries : list (string * JsValue)) :
  forall acc : JsRecord,
    NoDup (acc.*1 ++ entries.*1) ->
    fold_left (fun a e => objSet a e.1 e.2) entries acc
    = (acc ++ List.filter notProto entries)%list.
Proof.
  induction entries as [|[k v] entries IH]; intros acc Hnd.
  - cbn. now rewrite app_nil_r.
  - rewrite fmap_cons in Hnd. cbn [fst] in Hnd.
    apply NoDup_app in Hnd as (Hacc & Hdisj & Hrest).
    apply NoDup_cons in Hrest as [Hk Hrest].
    cbn [fold_left List.filter fst snd]. unfold objSet at 2.
    unfold notProto at 1. cbn [fst snd].
    destruct (String.eqb k "__proto__"); cbn [negb].
    + apply IH. apply NoDup_app. repeat split; [exact Hacc | | exact Hrest].
      intros x Hx Hx'. apply (Hdisj x Hx). now right.
    + rewrite recordGet_absent by (intros Hin; apply (Hdisj k Hin); now left).
      rewrite IH.
      * now rewrite <- app_assoc.
      * rewrite fmap_app, fmap_cons, fmap_nil, <- app_assoc. cbn [fst app].
        apply NoDup_app. repeat split; [exact Hacc | | now apply NoDup_cons].
        intros x Hx Hx'. apply (Hdisj x Hx). exact Hx'.
Qed.

Lemma collect_filter (entries : list (string * JsValue)) :
  NoDup (entries.*1) -> collect entries = List.filter notProto entries.
Proof. intros Hnd. unfold collect. now rewrite collect_from. Qed.

Lemma filter_all {A : Type} (f : A -> bool) (l : list A) :
  (forall x, x ∈ l -> f x = true) -> List.filter f l = l.
Proof.
  induction l as [|x l IH]; intros Hall; cbn; [reflexivity |].
  rewrite (Hall x) by now left. f_equal. apply IH.
  intros y Hy. apply Hall. now right.
Qed.

Lemma putAll_union (entries : JsRecord) :
  forall m : gmap string JsValue,
    NoDup (entries.*1) ->
    putAll entries m = list_to_map entries ∪ m.
Proof.
  unfold putAll.
  induction entries as [|[k v] entries IH]; intros m Hnd.
  - cbn. now rewrite (left_id_L ∅ (∪)).
  - rewrite fmap_cons in Hnd. cbn [fst] in Hnd.
    apply NoDup_cons in Hnd as [Hk Hnd].
    cbn [fold_left fst snd]. rewrite IH by exact Hnd.
    rewrite list_to_map_cons.
    apply map_eq. intros i.
    rewrite !lookup_union.
    destruct (decide (k = i)) as [<- | Hne].
    + rewrite !lookup_insert_eq.
      rewrite (proj1 (not_elem_of_list_to_map entries k) Hk).
      now destruct (m !! k).
    + now rewrite !lookup_insert_ne.
Qed.

Lemma adminExport_world (w : World) :
  adminExport w
  = (inr (mkExportResponse (collect (map_to_list (kv w))) (clock w)
            (length (map_to_list (kv w)))),
     logCall CallList w).
Proof. reflexivity. Qed.

(** Where no entry is stored under [__proto__], exporting and importing
    the exported data into a fresh instance gives back the entries, in
    whatever order the storage lists them, and [keyCount] is the number of
    properties of the exported data. *)
Lemma export_import_round_trip (entries : list (string * JsValue))
    (m : gmap string JsValue) (backend : option SqlDb) (now : string) :
  NoDup (entries.*1) ->
  list_to_map entries = m ->
  m !! "__proto__" = None ->
  length (collect entries) = length entries /\
  exists w',
    adminImport (collect entries) (initialWorld backend now) = (inr tt, w') /\
    kv w' = m.
Proof.
  intros Hnd Hm Hproto.
  assert (Hall : List.filter notProto entries = entries).
  { apply filter_all. intros [k v] Hin. unfold notProto. cbn.
    destruct (String.eqb_spec k "__proto__") as [-> | _]; [| reflexivity].
    exfalso. apply (elem_of_list_to_map_1 _ _ _ Hnd) in Hin.
    rewrite Hm in Hin. congruence. }
  rewrite collect_filter, Hall by exact Hnd. split; [reflexivity |].
  eexists. split; [apply adminImport_unfrozen; reflexivity |].
  cbn. rewrite putAll_union by exact Hnd.
  now rewrite Hm, (right_id_L ∅ (∪)).
Qed.

Lemma export_import_stored (w : World) (backend : option SqlDb) (now : string) :
  kv w !! "__proto__" = None ->
  exists r w1 w2,
    adminExport w = (inr r, w1) /\
    keyCount r = length (data r) /\
    adminImport (data r) (initialWorld backend now) = (inr tt, w2) /\
    kv w2 = kv w.
Proof.
  intros Hproto.
  destruct (export_import_round_trip (map_to_list (kv w)) (kv w) backend now)
    as (Hlen & w2 & Himp & Hkv);
    [apply NoDup_fst_map_to_list | apply list_to_map_to_list | exact Hproto |].
  eexists _, _, w2. rewrite adminExport_world. cbn.
  repeat split; [now symmetry | exact Himp | exact Hkv].
Qed.

Lemma recordGet_filter (props : JsRecord) (k : string) :
  recordGet (List.filter notProto props) k
  = if String.eqb k "__proto__" then None else recordGet props k.
Proof.
  induction props as [|[k' v'] props IH]; cbn [List.filter recordGet].
  - now destruct (String.eqb k "__proto__").
  - unfold notProto at 1. cbn [fst].
    destruct (String.eqb_spec k' "__proto__") as [Hk' | Hk'];
      cbn [negb recordGet]; rewrite IH;
      destruct (String.eqb_spec k "__proto__") as [Hk | Hk];
      destruct (String.eqb_spec k' k) as [Hkk | Hkk];
      try reflexivity; congruence.
Qed.

(** What the exported data holds under a name. *)
Lemma exported_entry (m : gmap string JsValue) (k : string) :
  recordGet (collect (map_to_list m)) k
  = if String.eqb k "__proto__" then None else m !! k.
Proof.
  rewrite collect_filter by apply NoDup_fst_map_to_list.
  now rewrite recordGet_filter, recordGet_list_to_map, list_to_map_to_list.
Qed.

Lemma listed_key (m : gmap string JsValue) (k : string) (v : JsValue) :
  m !! k = Some v -> k ∈ map fst (map_to_list m).
Proof.
  intros Hk. apply list_elem_of_In.
  change k with (fst (k, v)). apply in_map.
  now apply list_elem_of_In, elem_of_map_to_list.
Qed.

Lemma frozen_size (m : gmap string JsValue) (a : JsValue) :
  size (<[FROZEN_AT_KEY := a]> (<[FROZEN_STORAGE_KEY := JBool true]> m))
  = (2 + size (delete FROZEN_AT_KEY (delete FROZEN_STORAGE_KEY m)))%nat.
Proof.
  set (m0 := delete FROZEN_AT_KEY (delete FROZEN_STORAGE_KEY m)).
  assert (Heq : <[FROZEN_AT_KEY := a]> (<[FROZEN_STORAGE_KEY := JBool true]> m)
                = <[FROZEN_AT_KEY := a]> (<[FROZEN_STORAGE_KEY := JBool true]> m0)).
  { apply map_eq. intros i. subst m0.
    destruct (decide (FROZEN_AT_KEY = i)) as [<- | Hat].
    - now rewrite !lookup_insert_eq.
    - rewrite !(lookup_insert_ne _ FROZEN_AT_KEY) by exact Hat.
      destruct (decide (FROZEN_STORAGE_KEY = i)) as [<- | Hf].
      + now rewrite !lookup_insert_eq.
      + rewrite !(lookup_insert_ne _ FROZEN_STORAGE_KEY) by exact Hf.
        now rewrite !lookup_delete_ne. }
  rewrite Heq.
  rewrite map_size_insert_None.
  - rewrite map_size_insert_None; [reflexivity |].
    subst m0. rewrite lookup_delete_ne by discriminate. apply lookup_delete_eq.
  - rewrite lookup_insert_ne by discriminate. subst m0. apply lookup_delete_eq.
Qed.

(** C10: the reserved keys are ordinary entries.  In the world
    [adminFreeze] leaves, [adminExport] returns data holding
    [__do_manager_frozen] with [true] and [__do_manager_frozen_at] with the
    time of the freeze, its [keyCount] is the number of stored entries,
    these two counted with the others; on a key-value backend [adminList]
    returns keys that include both. *)
Theorem C10_reserved_keys_are_entries (w : World) :
  let w1 := (adminFreeze w).2 in
  (exists r w2,
     adminExport w1 = (inr r, w2) /\
     recordGet (data r) FROZEN_STORAGE_KEY = Some (JBool true) /\
     recordGet (data r) FROZEN_AT_KEY = Some (JString (clock w)) /\
     keyCount r = size (kv w1) /\
     keyCount r
     = (2 + size (delete FROZEN_AT_KEY (delete FROZEN_STORAGE_KEY (kv w))))%nat) /\
  (sql w = None ->
   exists ks w2,
     adminList sqlExec w1 = (inr (mkListResponse (Some ks) None), w2) /\
     FROZEN_STORAGE_KEY ∈ ks /\ FROZEN_AT_KEY ∈ ks).
Proof.
  intros w1. subst w1. rewrite adminFreeze_world. cbn [snd].
  set (m1 := <[FROZEN_AT_KEY := JString (clock w)]>
               (<[FROZEN_STORAGE_KEY := JBool true]> (kv w))).
  assert (Hf : m1 !! FROZEN_STORAGE_KEY = Some (JBool true)).
  { subst m1. rewrite lookup_insert_ne by discriminate. apply lookup_insert_eq. }
  assert (Hat : m1 !! FROZEN_AT_KEY = Some (JString (clock w))).
  { subst m1. apply lookup_insert_eq. }
  split.
  - eexists _, _. rewrite adminExport_world. split; [reflexivity |].
    cbn [kv logCall setKv data keyCount]. fold m1. rewrite !exported_entry.
    change (String.eqb FROZEN_STORAGE_KEY "__proto__") with false.
    change (String.eqb FROZEN_AT_KEY "__proto__") with false. cbv iota.
    repeat split; [exact Hf | exact Hat | apply length_map_to_list |].
    rewrite length_map_to_list. apply frozen_size.
  - intros Hsql. unfold adminList. cbn [sql logCall setKv]. rewrite Hsql.
    eexists _, _. split; [reflexivity |]. cbn [kv logCall setKv]. fold m1.
    split; eapply listed_key; eassumption.
Qed.

(** ** Routing *)

Lemma split_not_nil (sep : ascii) (s : string) : split sep s <> [].
Proof.
  destruct s as [|c s]; cbn; [discriminate |].
  destruct (Ascii.eqb c sep); [discriminate |].
  destruct (split sep s); discriminate.
Qed.

Lemma append_nil (s : string) : "" ++ s = s.
Proof. reflexivity. Qed.

Lemma append_cons (c : ascii) (a s : string) : String c a ++ s = String c (a ++ s).
Proof. reflexivity. Qed.

Lemma split_app (sep : ascii) (a b : string) :
  split sep (a ++ String sep b) = (split sep a ++ split sep b)%list.
Proof.
  induction a as [|c a IH].
  - rewrite append_nil. cbn [split]. now rewrite Ascii.eqb_refl.
  - rewrite append_cons. cbn [split]. rewrite IH.
    destruct (Ascii.eqb c sep); [reflexivity |].
    pose proof (split_not_nil sep a) as Hne.
    destruct (split sep a); [contradiction | reflexivity].
Qed.

Lemma split_noSlash (s : string) : noSlash s = true -> split "/" s = [s].
Proof.
  induction s as [|c s IH]; cbn; [reflexivity |].
  intros H. apply andb_true_iff in H as [Hc Hs].
  apply negb_true_iff in Hc. rewrite Hc, IH by exact Hs. reflexivity.
Qed.

Lemma slice_app (a b : string) : slice (String.length a) (a ++ b) = b.
Proof.
  induction a as [|c a IH].
  - rewrite append_nil. now destruct b.
  - rewrite append_cons. exact IH.
Qed.

Lemma startsWith_app (a b : string) : startsWith (a ++ b) a = true.
Proof.
  unfold startsWith. induction a as [|c a IH].
  - rewrite append_nil. now destruct b.
  - rewrite append_cons. cbn [String.prefix].
    destruct (ascii_dec c c); [exact IH | contradiction].
Qed.

(** With anything between the base path and the final segment, the
    selector is the final segment. *)
Lemma operationOf_last (base middle sel : string) :
  segment sel = true ->
  operationOf base (base ++ middle ++ "/" ++ sel) = "/" ++ sel.
Proof.
  intros Hseg. apply andb_true_iff in Hseg as [Hne Hns].
  unfold operationOf. rewrite slice_app.
  change ("/" ++ sel) with (String "/" sel).
  rewrite split_app, (split_noSlash sel Hns).
  rewrite List.filter_app. cbn [List.filter]. rewrite Hne.
  now rewrite last_snoc.
Qed.

Lemma route_withPath (request : Request) (path operation : string) :
  route sqlExec (withPath request path) operation = route sqlExec request operation.
Proof. reflexivity. Qed.

Lemma handleAdminRequest_on_path (options : AdminHooksOptions)
    (request : Request) (rest : string) (w : World) :
  handleAdminRequest sqlExec options
    (withPath request (default "/admin" (basePath options) ++ rest)) w
  = if authenticated options request
    then match route sqlExec request
                 (operationOf (default "/admin" (basePath options))
                    (default "/admin" (basePath options) ++ rest)) w with
         | (inr response, w') => (Some response, w')
         | (inl error, w') =>
             (Some (jsonResponse 500 (errorBody (messageOf error))), w')
         end
    else (Some unauthorized, w).
Proof.
  unfold handleAdminRequest, dispatch.
  cbn [pathname withPath]. rewrite startsWith_app. cbn [negb].
  change (authenticated options (withPath request (default "/admin" (basePath options) ++ rest)))
    with (authenticated options request).
  rewrite route_withPath. now destruct (authenticated options request).
Qed.

Lemma route_get (request : Request) (x : string) (w : World) :
  method request = "GET" ->
  searchKey request = Some x ->
  x <> "" ->
  route sqlExec request "/get" w
  = (inr (Response_json (JObject [("value", default JUndefined (kv w !! x))])),
     logCall (CallGet x) w).
Proof.
  intros Hm Hk Hx. unfold route. rewrite Hm, Hk. cbn.
  apply String.eqb_neq in Hx. now rewrite Hx.
Qed.

Lemma route_unregistered (request : Request) (operation : string) (w : World) :
  registered operation (method request) = false ->
  route sqlExec request operation w
  = (inr (jsonResponse 404 (errorBody "Unknown admin endpoint")), w).
Proof.
  unfold registered, routeTable. cbn [existsb fst snd]. intros H.
  repeat (apply orb_false_iff in H as [?H H]).
  unfold route.
  repeat match goal with
         | Hx : (_ && _)%bool = false |- _ => rewrite Hx; clear Hx
         end.
  reflexivity.
Qed.

(** C7: the router selects the operation from the last non-empty path
    segment.  For every base path, instance-name segment [n] and selector
    segment, the path with [n] inserted and the path without it select the
    same operation and get the same answer; on [.../get?key=x] an admitted
    GET request is answered by the get operation either way; and an
    admitted request under the base path whose selector and method match
    no table entry is answered 404 with body
    [{error: "Unknown admin endpoint"}]. *)
Theorem C7_last_segment_selects (options : AdminHooksOptions)
    (request : Request) (w : World) (n : string) :
  let base := default "/admin" (basePath options) in
  (forall sel : string,
     segment sel = true ->
     operationOf base (base ++ "/" ++ sel) = "/" ++ sel /\
     operationOf base (base ++ "/" ++ n ++ "/" ++ sel) = "/" ++ sel /\
     handleAdminRequest sqlExec options
       (withPath request (base ++ "/" ++ n ++ "/" ++ sel)) w
     = handleAdminRequest sqlExec options
         (withPath request (base ++ "/" ++ sel)) w) /\
  (forall x : string,
     method request = "GET" ->
     searchKey request = Some x ->
     x <> "" ->
     authenticated options request = true ->
     let answer :=
       (Some (Response_json (JObject [("value", default JUndefined (kv w !! x))])),
        logCall (CallGet x) w) in
     handleAdminRequest sqlExec options (withPath request (base ++ "/get")) w
     = answer /\
     handleAdminRequest sqlExec options
       (withPath request (base ++ "/" ++ n ++ "/get")) w
     = answer) /\
  (startsWith (pathname request) base = true ->
   authenticated options request = true ->
   registered (operationOf base (pathname request)) (method request) = false ->
   handleAdminRequest sqlExec options request w
   = (Some (jsonResponse 404 (errorBody "Unknown admin endpoint")), w)).
Proof.
  intros base.
  assert (Hop : forall sel, segment sel = true ->
            operationOf base (base ++ "/" ++ sel) = "/" ++ sel /\
            operationOf base (base ++ "/" ++ n ++ "/" ++ sel) = "/" ++ sel).
  { intros sel Hseg. split.
    - apply (operationOf_last base "" sel Hseg).
    - apply (operationOf_last base ("/" ++ n) sel Hseg). }
  split; [| split].
  - intros sel Hseg. destruct (Hop sel Hseg) as [H1 H2].
    repeat split; [exact H1 | exact H2 |].
    subst base. rewrite !handleAdminRequest_on_path. now rewrite H1, H2.
  - intros x Hm Hk Hx Hauth answer.
    assert (H1 : operationOf base (base ++ "/get") = "/get")
      by exact (proj1 (Hop "get" eq_refl)).
    assert (H2 : operationOf base (base ++ "/" ++ n ++ "/get") = "/get")
      by exact (proj2 (Hop "get" eq_refl)).
    subst base answer.
    rewrite !handleAdminRequest_on_path, Hauth, H1, H2.
    now rewrite (route_get request x w Hm Hk Hx).
  - intros Hpath Hauth Hreg. unfold handleAdminRequest, dispatch. fold base.
    rewrite Hpath, Hauth. cbn [negb].
    now rewrite route_unregistered.
Qed.

(** ** Failures *)

Lemma route_put (request : Request) (w : World) :
  method request = "POST" ->
  route sqlExec request "/put" w
  = (let* body := request_json request in
     let* key := getProp body "key" in
     if negb (truthy key) then
       ret (jsonResponse 400 (errorBody "Missing key in body"))
     else
       let* v := getProp body "value" in
       adminPut key v;;
       ret (Response_json successBody)) w.
Proof. intros Hm. unfold route. rewrite Hm. reflexivity. Qed.

Lemma route_put_frozen (request : Request) (w : World) (props : JsRecord)
    (key : JsValue) :
  isFrozen w = true ->
  method request = "POST" ->
  jsonBody request = inr (JObject props) ->
  recordGet props "key" = Some key ->
  truthy key = true ->
  strictEqString key FROZEN_STORAGE_KEY = false ->
  route sqlExec request "/put" w
  = (inl frozenError, logCall (CallGet FROZEN_STORAGE_KEY) w).
Proof.
  intros Hfrozen Hm Hbody Hkey Htruthy Hne.
  rewrite route_put by exact Hm.
  unfold bind at 1, request_json. rewrite Hbody. unfold ret at 1.
  unfold bind at 1, getProp at 1. rewrite Hkey. cbn [from_option id]. unfold ret at 1.
  rewrite Htruthy. cbn [negb].
  unfold bind at 1, getProp at 1, ret at 1.
  unfold bind at 1. now rewrite adminPut_frozen.
Qed.

(** C8, as the code has it: a failure raised during dispatch is answered
    500 with body [{error: message}], the message of the [Error] verbatim
    (["Unknown error"] for a thrown value that is no [Error]).  In
    particular, while the instance is frozen, a POST put whose body has a
    truthy key other than the frozen-flag key is answered 500 with body
    [{error: "Instance is frozen. Unfreeze before making changes."}], and
    only the flag was read. *)
Theorem C8_failure_answers_500 (options : AdminHooksOptions)
    (request : Request) (w : World) :
  let base := default "/admin" (basePath options) in
  startsWith (pathname request) base = true ->
  authenticated options request = true ->
  (forall (error : Thrown) (w' : World),
     route sqlExec request (operationOf base (pathname request)) w = (inl error, w') ->
     handleAdminRequest sqlExec options request w
     = (Some (jsonResponse 500 (errorBody (messageOf error))), w')) /\
  (forall message : string, messageOf (ErrorObj message) = message) /\
  (forall (props : JsRecord) (key : JsValue),
     isFrozen w = true ->
     method request = "POST" ->
     operationOf base (pathname request) = "/put" ->
     jsonBody request = inr (JObject props) ->
     recordGet props "key" = Some key ->
     truthy key = true ->
     strictEqString key FROZEN_STORAGE_KEY = false ->
     handleAdminRequest sqlExec options request w
     = (Some (jsonResponse 500
                (errorBody "Instance is frozen. Unfreeze before making changes.")),
        logCall (CallGet FROZEN_STORAGE_KEY) w)).
Proof.
  intros base Hpath Hauth.
  assert (Hcatch : forall error w',
            route sqlExec request (operationOf base (pathname request)) w
            = (inl error, w') ->
            handleAdminRequest sqlExec options request w
            = (Some (jsonResponse 500 (errorBody (messageOf error))), w')).
  { intros error w' Hroute. unfold handleAdminRequest, dispatch. fold base.
    rewrite Hpath, Hauth. cbn [negb]. now rewrite Hroute. }
  split; [exact Hcatch |]. split; [reflexivity |].
  intros props key Hfrozen Hm Hop Hbody Hkey Htruthy Hne.
  apply (Hcatch frozenError). rewrite Hop.
  now apply (route_put_frozen request w props key).
Qed.

(** ** Further properties of the router *)

(** X1: The comparator computes string equality. *)
Theorem timingSafeEqual_is_equality (a b : string) :
  timingSafeEqual a b = String.eqb a b.
Proof.
  destruct (String.eqb_spec a b) as [Heq | Hne].
  - now apply timingSafeEqual_spec.
  - now apply timingSafeEqual_false.
Qed.

Lemma route_json (request : Request) (operation : string) (w w' : World)
    (response : Response) :
  route sqlExec request operation w = (inr response, w') ->
  contentType response = "application/json".
Proof.
  unfold route. intros H.
  repeat (split_match H;
          [ run_async; repeat split_match H; simplify_eq; reflexivity | ]).
  run_async. simplify_eq. reflexivity.
Qed.

(** A response of the route with status 400 or 404 comes with the world
    the request found. *)
Ltac split_hyps :=
  repeat (match goal with
          | H : context [match ?x with _ => _ end] |- _ => destruct x eqn:?
          end; simplify_eq).

Lemma route_refusal (request : Request) (operation : string) (w w' : World)
    (response : Response) :
  route sqlExec request operation w = (inr response, w') ->
  status response <> 200 ->
  w' = w.
Proof.
  unfold route. intros H Hs.
  repeat (split_match H;
          [ run_async; repeat split_match H; simplify_eq; split_hyps;
            solve [reflexivity | exfalso; apply Hs; reflexivity] | ]).
  run_async. simplify_eq. reflexivity.
Qed.

(** X2: The router answers exactly the requests whose path starts with the
    base path; what it answers is JSON with one of five statuses. *)
Theorem handleAdminRequest_answers (options : AdminHooksOptions)
    (request : Request) (w : World) :
  let base := default "/admin" (basePath options) in
  (startsWith (pathname request) base = false ->
   handleAdminRequest sqlExec options request w = (None, w)) /\
  (startsWith (pathname request) base = true ->
   exists response w',
     handleAdminRequest sqlExec options request w = (Some response, w') /\
     contentType response = "application/json" /\
     (status response = 200 \/ status response = 400 \/ status response = 401
      \/ status response = 404 \/ status response = 500)).
Proof.
  intros base. unfold handleAdminRequest. fold base. split; intros Hpath;
    rewrite Hpath; cbn [negb]; [reflexivity |].
  destruct (authenticated options request); cbn [negb].
  - unfold dispatch.
    destruct (route sqlExec request _ w) as [[e | r] w1] eqn:Hroute.
    + eexists _, _. split; [reflexivity |]. cbn. tauto.
    + eexists _, _. split; [reflexivity |].
      split; [apply (route_json _ _ _ _ _ Hroute) |].
      apply route_status in Hroute. tauto.
  - eexists _, _. split; [reflexivity |]. cbn. tauto.
Qed.

(** X3: An answer 400, 401 or 404 means that no storage call was made: the
    world is the one the request found. *)
Theorem refusal_leaves_world (options : AdminHooksOptions) (request : Request)
    (w w' : World) (response : Response) :
  handleAdminRequest sqlExec options request w = (Some response, w') ->
  status response = 400 \/ status response = 401 \/ status response = 404 ->
  w' = w.
Proof.
  unfold handleAdminRequest, dispatch. intros H Hs.
  destruct (negb (startsWith _ _)); [discriminate |].
  destruct (negb (authenticated options request)); [now simplify_eq |].
  destruct (route sqlExec request _ w) as [[e | r] w1] eqn:Hroute.
  - simplify_eq. cbn in Hs. lia.
  - simplify_eq. apply (route_refusal _ _ _ _ _ Hroute). lia.
Qed.

(** X4: [fetch] always answers: with the admin response on an admin path,
    with the default text response, and no storage call, anywhere else. *)
Theorem fetch_answers (options : AdminHooksOptions) (request : Request)
    (w : World) :
  let base := default "/admin" (basePath options) in
  (startsWith (pathname request) base = false ->
   fetch sqlExec options request w = (defaultResponse, w)) /\
  (startsWith (pathname request) base = true ->
   exists response w',
     handleAdminRequest sqlExec options request w = (Some response, w') /\
     fetch sqlExec options request w = (response, w') /\
     response <> defaultResponse).
Proof.
  intros base.
  destruct (handleAdminRequest_answers options request w) as [Hout Hin].
  fold base in Hout, Hin. unfold fetch. split; intros Hpath.
  - now rewrite (Hout Hpath).
  - destruct (Hin Hpath) as (response & w' & Hh & Hct & _).
    exists response, w'. rewrite Hh. repeat split.
    intros ->. discriminate.
Qed.

Lemma route_unparsed (request : Request) (operation message : string) (w : World) :
  jsonBody request = inl message ->
  readsBody operation (method request) = true ->
  route sqlExec request operation w = (inl (ErrorObj message), w).
Proof.
  intros Hbody Hreads. unfold readsBody in Hreads. cbn [existsb fst snd] in Hreads.
  repeat (apply orb_true_iff in Hreads as [Hreads | Hreads]);
    try discriminate;
    apply andb_true_iff in Hreads as [Hop Hm];
    apply String.eqb_eq in Hop, Hm; subst operation;
    unfold route, request_json, bind, throw; rewrite Hm, Hbody; reflexivity.
Qed.

(** X5: A body that [request.json()] cannot read is answered 500 with the
    parser's message, before any storage call, on every route that takes a
    body. *)
Theorem unparsed_body_answers_500 (options : AdminHooksOptions)
    (request : Request) (w : World) (message : string) :
  let base := default "/admin" (basePath options) in
  startsWith (pathname request) base = true ->
  authenticated options request = true ->
  jsonBody request = inl message ->
  readsBody (operationOf base (pathname request)) (method request) = true ->
  handleAdminRequest sqlExec options request w
  = (Some (jsonResponse 500 (errorBody message)), w).
Proof.
  intros base Hpath Hauth Hbody Hreads.
  unfold handleAdminRequest, dispatch. fold base. rewrite Hpath, Hauth.
  cbn [negb]. now rewrite (route_unparsed _ _ message w Hbody Hreads).
Qed.

(** ** Further properties of the freeze record and the entries *)

Lemma adminUnfreeze_world (w : World) :
  adminUnfreeze w
  = (inr (mkFreezeResponse false None),
     logCall (CallDelete FROZEN_AT_KEY)
       (setKv (delete FROZEN_AT_KEY (delete FROZEN_STORAGE_KEY (kv w)))
          (logCall (CallDelete FROZEN_STORAGE_KEY)
             (setKv (delete FROZEN_STORAGE_KEY (kv w)) w)))).
Proof. reflexivity. Qed.

Lemma isFrozen_lookup (w : World) (v : JsValue) :
  kv w !! FROZEN_STORAGE_KEY = Some v -> isFrozen w = truthy v.
Proof. unfold isFrozen, frozenFlag. now intros ->. Qed.

Lemma isFrozen_absent (w : World) :
  kv w !! FROZEN_STORAGE_KEY = None -> isFrozen w = false.
Proof. unfold isFrozen, frozenFlag. now intros ->. Qed.

Lemma adminGetFreezeStatus_result (w : World) :
  (adminGetFreezeStatus w).1
  = inr (mkFreezeResponse (isFrozen w)
           (Some (if nullish (default JUndefined (kv w !! FROZEN_AT_KEY))
                  then JUndefined
                  else default JUndefined (kv w !! FROZEN_AT_KEY)))).
Proof. reflexivity. Qed.

(** X6: Whatever the world was, [adminFreeze] leaves an instance that reports
    frozen with the time of the call, satisfies the invariant of the
    freeze record, and refuses put and delete on every key but the
    frozen-flag key, and import. *)
Theorem freeze_blocks_writes (w : World) (k : string) (v : JsValue)
    (entries : JsRecord) :
  k <> FROZEN_STORAGE_KEY ->
  let w1 := (adminFreeze w).2 in
  isFrozen w1 = true /\
  freezeInvariant w1 /\
  (adminGetFreezeStatus w1).1
  = inr (mkFreezeResponse true (Some (JString (clock w)))) /\
  (adminPut (JString k) v w1).1 = inl frozenError /\
  (adminDelete (JString k) w1).1 = inl frozenError /\
  (adminImport entries w1).1 = inl frozenImportError.
Proof.
  intros Hk w1. subst w1. rewrite adminFreeze_world. cbn [snd].
  set (w1 := logCall _ _).
  assert (Hf : kv w1 !! FROZEN_STORAGE_KEY = Some (JBool true)).
  { subst w1. cbn. rewrite lookup_insert_ne by discriminate.
    apply lookup_insert_eq. }
  assert (Hat : kv w1 !! FROZEN_AT_KEY = Some (JString (clock w))).
  { subst w1. cbn. apply lookup_insert_eq. }
  assert (Hfrozen : isFrozen w1 = true) by now rewrite (isFrozen_lookup _ _ Hf).
  apply strictEqString_JString in Hk.
  repeat split.
  - exact Hfrozen.
  - intros _. exact Hf.
  - intros _. rewrite Hat. eauto.
  - now rewrite adminGetFreezeStatus_result, Hfrozen, Hat.
  - now rewrite adminPut_frozen.
  - now rewrite adminDelete_frozen.
  - now rewrite adminImport_frozen.
Qed.

(** X7: Whatever the world was, [adminUnfreeze] leaves an instance that
    reports not frozen with no frozen-at, satisfies the invariant, has lost
    nothing but the two reserved entries, and on which no put throws the
    frozen error: a put of a value other than [undefined] returns, on any
    key. *)
Theorem unfreeze_clears_record (w : World) :
  let w1 := (adminUnfreeze w).2 in
  isFrozen w1 = false /\
  freezeInvariant w1 /\
  (adminGetFreezeStatus w1).1 = inr (mkFreezeResponse false (Some JUndefined)) /\
  kv w1 = delete FROZEN_AT_KEY (delete FROZEN_STORAGE_KEY (kv w)) /\
  (forall k : string, reservedKey k = false -> kv w1 !! k = kv w !! k) /\
  (forall (k : string) (v : JsValue),
     (adminPut (JString k) v w1).1 <> inl frozenError) /\
  (forall (k : string) (v : JsValue),
     v <> JUndefined -> (adminPut (JString k) v w1).1 = inr tt).
Proof.
  intros w1. subst w1. rewrite adminUnfreeze_world. cbn [snd].
  set (w1 := logCall _ _).
  assert (Hf : kv w1 !! FROZEN_STORAGE_KEY = None).
  { subst w1. cbn. rewrite lookup_delete_ne by discriminate.
    apply lookup_delete_eq. }
  assert (Hat : kv w1 !! FROZEN_AT_KEY = None).
  { subst w1. cbn. apply lookup_delete_eq. }
  assert (Hfrozen : isFrozen w1 = false) by now apply isFrozen_absent.
  assert (Hput : forall (k : string) (v : JsValue),
            (adminPut (JString k) v w1).1
            = (if isUndefined v then inl undefinedValueError else inr tt)).
  { intros k v. destruct (String.eqb_spec k FROZEN_STORAGE_KEY) as [-> | Hk].
    - rewrite adminPut_flag_call. apply storage_put_outcome.
    - apply strictEqString_JString in Hk.
      rewrite adminPut_unfrozen_call by assumption. apply storage_put_outcome. }
  repeat split.
  - exact Hfrozen.
  - rewrite Hat. intros [x Hx]. discriminate.
  - rewrite Hf. discriminate.
  - now rewrite adminGetFreezeStatus_result, Hfrozen, Hat.
  - intros k Hk. apply reservedKey_false in Hk as [Hk1 Hk2]. subst w1. cbn.
    now rewrite !lookup_delete_ne.
  - intros k v. rewrite Hput. destruct (isUndefined v); discriminate.
  - intros k v Hv. rewrite Hput. destruct v; try reflexivity. contradiction.
Qed.

(** X8: On an instance that stores neither reserved key, freezing and then
    unfreezing gives back the entries it had. *)
Theorem freeze_unfreeze_restores (w : World) :
  kv w !! FROZEN_STORAGE_KEY = None ->
  kv w !! FROZEN_AT_KEY = None ->
  kv (adminUnfreeze (adminFreeze w).2).2 = kv w.
Proof.
  intros Hf Hat. rewrite adminFreeze_world, adminUnfreeze_world. cbn.
  rewrite delete_insert_ne by discriminate.
  rewrite !delete_insert_eq.
  rewrite (delete_id _ _ Hf). now apply delete_id.
Qed.

(** X9: The guard follows the truth value of whatever a put stored under the
    frozen-flag key: after [adminPut] there of a value [v] other than
    [undefined], the status reports the truth value of [v], and a put on
    another key throws the frozen error exactly when [v] is truthy.  A put
    of [undefined] there is rejected and leaves the frozen state as it
    was. *)
Theorem flag_value_drives_guard (w : World) (v x : JsValue) (k : string) :
  k <> FROZEN_STORAGE_KEY ->
  let w1 := (adminPut (JString FROZEN_STORAGE_KEY) v w).2 in
  let w0 := (adminPut (JString FROZEN_STORAGE_KEY) JUndefined w).2 in
  (v <> JUndefined ->
   isFrozen w1 = truthy v /\
   (adminPut (JString k) x w1).1
   = (if truthy v then inl frozenError
      else if isUndefined x then inl undefinedValueError else inr tt) /\
   (exists at_ : option JsValue,
      (adminGetFreezeStatus w1).1 = inr (mkFreezeResponse (truthy v) at_))) /\
  (adminPut (JString FROZEN_STORAGE_KEY) JUndefined w).1
  = inl undefinedValueError /\
  isFrozen w0 = isFrozen w.
Proof.
  intros Hk w1 w0. split; [| split; reflexivity].
  intros Hv. subst w1. rewrite adminPut_flag by exact Hv. cbn [snd].
  set (w1 := logCall _ _).
  assert (Hf : kv w1 !! FROZEN_STORAGE_KEY = Some v).
  { subst w1. cbn. apply lookup_insert_eq. }
  pose proof (isFrozen_lookup _ _ Hf) as Hfrozen.
  apply strictEqString_JString in Hk.
  repeat split.
  - exact Hfrozen.
  - destruct (truthy v) eqn:Htruthy.
    + now rewrite adminPut_frozen.
    + rewrite adminPut_unfrozen_call by assumption. apply storage_put_outcome.
  - rewrite adminGetFreezeStatus_result, Hfrozen. eauto.
Qed.

(** X10: An unfrozen put writes one entry: every other key reads as before,
    and the alarm and the relational backend are untouched. *)
Theorem put_leaves_other_entries (w : World) (k k' : string) (v : JsValue) :
  isFrozen w = false ->
  k' <> k ->
  let w1 := (adminPut (JString k) v w).2 in
  (adminGet k' w1).1 = (adminGet k' w).1 /\
  alarmAt w1 = alarmAt w /\
  sql w1 = sql w.
Proof.
  intros Hfrozen Hne w1. subst w1.
  assert (Hw : exists w0, kv w0 = kv w /\ alarmAt w0 = alarmAt w /\ sql w0 = sql w /\
                 adminPut (JString k) v w = storage_put k v w0).
  { destruct (String.eqb_spec k FROZEN_STORAGE_KEY) as [-> | Hk].
    - exists w. do 3 (split; [reflexivity |]). apply adminPut_flag_call.
    - apply strictEqString_JString in Hk.
      exists (logCall (CallGet FROZEN_STORAGE_KEY) w).
      do 3 (split; [reflexivity |]). now apply adminPut_unfrozen_call. }
  destruct Hw as (w0 & Hkv & Ha & Hs & ->).
  destruct (storage_put_frame w0 k v) as (Hother & Halarm & Hsql).
  unfold adminGet, bind, storage_get, ret. cbn.
  rewrite (Hother k' Hne), Hkv, Halarm, Hsql, Ha, Hs. repeat split.
Qed.

(** X11: An unfrozen delete returns whether or not the key was stored; the key
    then reads as [undefined], every other key reads as before, and
    deleting a key that was not stored changes no entry. *)
Theorem delete_then_get (w : World) (k : string) :
  isFrozen w = false ->
  exists w1,
    adminDelete (JString k) w = (inr tt, w1) /\
    (adminGet k w1).1 = inr (mkGetResponse JUndefined) /\
    (forall k' : string, k' <> k -> kv w1 !! k' = kv w !! k') /\
    (kv w !! k = None -> kv w1 = kv w).
Proof.
  intros Hfrozen.
  assert (Hd : exists w0, adminDelete (JString k) w
                          = (inr tt, logCall (CallDelete k)
                                       (setKv (delete k (kv w)) w0))).
  { destruct (String.eqb_spec k FROZEN_STORAGE_KEY) as [-> | Hk].
    - eexists. apply adminDelete_flag.
    - apply strictEqString_JString in Hk. eexists.
      now apply adminDelete_unfrozen. }
  destruct Hd as [w0 Hd]. eexists. split; [exact Hd |]. cbn.
  repeat split.
  - unfold adminGet, bind, storage_get, ret. cbn. now rewrite lookup_delete_eq.
  - intros k' Hne. now rewrite lookup_delete_ne.
  - apply delete_id.
Qed.

(** X12: An unfrozen put followed by a delete of the same key leaves the
    entries as a delete alone would; if the key was not stored, they are
    the entries before the put. *)
Theorem put_then_delete (w : World) (k : string) (v : JsValue) :
  isFrozen w = false ->
  let w2 := (adminDelete (JString k) (adminPut (JString k) v w).2).2 in
  kv w2 = delete k (kv w) /\
  (kv w !! k = None -> kv w2 = kv w).
Proof.
  intros Hfrozen w2.
  assert (Hkv : kv w2 = delete k (kv w)).
  { subst w2. destruct (String.eqb_spec k FROZEN_STORAGE_KEY) as [-> | Hk].
    - rewrite adminPut_flag_call, adminDelete_flag. cbn.
      rewrite storage_put_kv. destruct (isUndefined v); [reflexivity |].
      apply delete_insert_eq.
    - pose proof Hk as Hs. apply strictEqString_JString in Hs.
      rewrite adminPut_unfrozen_call by assumption.
      rewrite adminDelete_unfrozen.
      + cbn. rewrite storage_put_kv. destruct (isUndefined v); [reflexivity |].
        apply delete_insert_eq.
      + exact Hs.
      + unfold isFrozen, frozenFlag.
        rewrite (proj1 (storage_put_frame _ k v)) by congruence. exact Hfrozen. }
  split; [exact Hkv |]. intros Hnone. rewrite Hkv. now apply delete_id.
Qed.


(** ** Further properties of the alarm, SQL, list and export operations *)

(** X15: [adminSql] on a key-value instance throws "SQL not available" before
    any storage call; on a relational instance it returns the engine's
    rows with their count and column names, or throws what the engine
    throws; it runs whether or not the instance is frozen and touches
    neither the entries nor the alarm. *)
Theorem adminSql_outcomes (w : World) (query : JsValue) :
  (sql w = None ->
   adminSql sqlExec query w
   = (inl (ErrorObj "SQL not available - this DO uses KV storage backend"), w)) /\
  (forall (db db' : SqlDb) (r : SqlStorageResult),
     sql w = Some db ->
     sqlExec query db = (inr r, db') ->
     exists w',
       adminSql sqlExec query w
       = (inr (mkSqlResponse (rows r) (length (rows r)) (columnNames r)), w') /\
       kv w' = kv w /\ alarmAt w' = alarmAt w /\ sql w' = Some db' /\
       calls w' = (calls w ++ [CallSqlExec query])%list) /\
  (forall (db db' : SqlDb) (e : Thrown),
     sql w = Some db ->
     sqlExec query db = (inl e, db') ->
     exists w',
       adminSql sqlExec query w = (inl e, w') /\
       kv w' = kv w /\ alarmAt w' = alarmAt w /\ sql w' = Some db').
Proof.
  unfold adminSql, sql_exec, bind, ret, throw. repeat split.
  - now intros ->.
  - intros db db' r -> Hexec. rewrite Hexec. eexists. repeat split.
  - intros db db' e -> Hexec. rewrite Hexec. eexists. repeat split.
Qed.

Lemma map_fst_fmap (l : list (string * JsValue)) : map fst l = l.*1.
Proof. induction l as [|x l IH]; cbn; [reflexivity | now rewrite IH]. Qed.

Lemma onlyRead_logCall (w : World) (c : StorageCall) :
  mutating c = false -> onlyRead w (logCall c w).
Proof.
  intros Hc. split; [repeat split |]. exists [c]. cbn. now rewrite Hc.
Qed.

Lemma onlyRead_trans (w w1 w2 : World) :
  onlyRead w w1 -> onlyRead w1 w2 -> onlyRead w w2.
Proof.
  intros [(Hk1 & Ha1 & Hs1) (l1 & Hc1 & Hm1)] [(Hk2 & Ha2 & Hs2) (l2 & Hc2 & Hm2)].
  split; [repeat split; congruence |].
  exists (l1 ++ l2)%list. split.
  - now rewrite Hc2, Hc1, <- app_assoc.
  - rewrite forallb_app. now rewrite Hm1, Hm2.
Qed.

(** X16: On a key-value instance [adminList] returns the stored keys, each
    once, and only reads; on a relational instance it returns what the
    engine's catalog query names and lists no key. *)
Theorem adminList_lists (w : World) :
  (sql w = None ->
   exists ks w',
     adminList sqlExec w = (inr (mkListResponse (Some ks) None), w') /\
     NoDup ks /\
     (forall k : string, k ∈ ks <-> is_Some (kv w !! k)) /\
     length ks = size (kv w) /\
     onlyRead w w') /\
  (forall (db db' : SqlDb) (r : SqlStorageResult),
     sql w = Some db ->
     sqlExec (JString listTablesQuery) db = (inr r, db') ->
     (adminList sqlExec w).1
     = inr (mkListResponse None
              (Some (map (fun row => default JUndefined (recordGet row "name"))
                         (rows r))))).
Proof.
  unfold adminList. split.
  - intros ->. eexists _, _. split; [reflexivity |].
    rewrite map_fst_fmap. repeat split.
    + apply NoDup_fst_map_to_list.
    + intros Hin. apply list_elem_of_fmap in Hin as ([k' v] & -> & Hin).
      apply elem_of_map_to_list in Hin. cbn. eauto.
    + intros [v Hv]. apply list_elem_of_fmap. exists (k, v).
      split; [reflexivity | now apply elem_of_map_to_list].
    + rewrite length_fmap. apply length_map_to_list.
    + exists [CallList]. split; reflexivity.
  - intros db db' r -> Hexec. unfold sql_exec, bind, ret. now rewrite Hexec.
Qed.

Lemma NoDup_fst_filter (f : string * JsValue -> bool) (l : list (string * JsValue)) :
  NoDup (l.*1) -> NoDup ((List.filter f l).*1).
Proof.
  induction l as [|[k v] l IH]; [trivial |].
  rewrite fmap_cons. cbn [fst List.filter]. intros Hnd.
  apply NoDup_cons in Hnd as [Hk Hnd].
  destruct (f (k, v)); [| now apply IH].
  rewrite fmap_cons. cbn [fst]. apply NoDup_cons. split; [| now apply IH].
  intros Hin. apply Hk.
  apply list_elem_of_fmap in Hin as ([k' v'] & Heq & Hin). cbn in Heq. subst k'.
  apply list_elem_of_fmap. exists (k, v'). split; [reflexivity |].
  apply list_elem_of_In. apply list_elem_of_In in Hin.
  now apply List.filter_In in Hin as [Hin _].
Qed.

(** X17: In every world, frozen or not, [adminExport] returns; its data holds
    under each name other than [__proto__] what the storage holds under
    it, and nothing under [__proto__]; its names are distinct;
    [exportedAt] is the time of the call and [keyCount] the number of
    stored entries; and the operation only reads. *)
Theorem adminExport_exports (w : World) :
  exists r w',
    adminExport w = (inr r, w') /\
    (forall k : string,
       recordGet (data r) k
       = if String.eqb k "__proto__" then None else kv w !! k) /\
    NoDup ((data r).*1) /\
    exportedAt r = clock w /\
    keyCount r = size (kv w) /\
    onlyRead w w'.
Proof.
  eexists _, _. split; [apply adminExport_world |].
  cbn [data exportedAt keyCount]. repeat split.
  - intros k. apply exported_entry.
  - rewrite collect_filter by apply NoDup_fst_map_to_list.
    apply NoDup_fst_filter, NoDup_fst_map_to_list.
  - apply length_map_to_list.
  - exists [CallList]. split; reflexivity.
Qed.

(** X18: The get, export, alarm-query and freeze-status operations, and the
    list operation on a key-value instance, only read: entries, alarm and
    backend are what they were and no call they make can write. *)
Theorem read_operations_only_read (c : AdminCall) (w : World) :
  readOnlyCall c = true ->
  (c = OpList -> sql w = None) ->
  onlyRead w (after sqlExec c w).
Proof.
  intros Hc Hkv. destruct c; try discriminate; cbn [after].
  - unfold adminList. rewrite (Hkv eq_refl). now apply onlyRead_logCall.
  - now apply onlyRead_logCall.
  - now apply onlyRead_logCall.
  - rewrite adminExport_world. now apply onlyRead_logCall.
  - apply (onlyRead_trans _ (logCall (CallGet FROZEN_STORAGE_KEY) w));
      now apply onlyRead_logCall.
Qed.

(** ** Further properties of path matching and validation *)

Lemma slice_all (a : string) : slice (String.length a) a = "".
Proof. induction a as [|c a IH]; [reflexivity | exact IH]. Qed.

Lemma startsWith_refl (a : string) : startsWith a a = true.
Proof.
  unfold startsWith. induction a as [|c a IH]; [reflexivity |].
  cbn [String.prefix]. destruct (ascii_dec c c); [exact IH | contradiction].
Qed.

Lemma registered_empty (m : string) : registered "" m = false.
Proof. reflexivity. Qed.

Lemma handleAdminRequest_admitted (options : AdminHooksOptions)
    (request : Request) (w : World) :
  startsWith (pathname request) (default "/admin" (basePath options)) = true ->
  authenticated options request = true ->
  handleAdminRequest sqlExec options request w
  = dispatch sqlExec (default "/admin" (basePath options)) request w.
Proof. intros Hpath Hauth. unfold handleAdminRequest. now rewrite Hpath, Hauth. Qed.

(** X19: A path with no segment after the base path (the base path itself, or
    the base path and a slash) selects nothing: an admitted request there
    is answered 404 whatever its method, without a storage call. *)
Theorem bare_base_path_is_unknown (options : AdminHooksOptions)
    (request : Request) (w : World) :
  let base := default "/admin" (basePath options) in
  authenticated options request = true ->
  operationOf base base = "" /\
  operationOf base (base ++ "/") = "" /\
  handleAdminRequest sqlExec options (withPath request base) w
  = (Some (jsonResponse 404 (errorBody "Unknown admin endpoint")), w) /\
  handleAdminRequest sqlExec options (withPath request (base ++ "/")) w
  = (Some (jsonResponse 404 (errorBody "Unknown admin endpoint")), w).
Proof.
  intros base Hauth.
  assert (H1 : operationOf base base = "").
  { unfold operationOf. now rewrite slice_all. }
  assert (H2 : operationOf base (base ++ "/") = "").
  { unfold operationOf. now rewrite slice_app. }
  split; [exact H1 |]. split; [exact H2 |]. split.
  - rewrite handleAdminRequest_admitted;
      [| apply startsWith_refl | exact Hauth].
    unfold dispatch. cbn [pathname withPath]. fold base. rewrite H1.
    now rewrite route_unregistered by apply registered_empty.
  - rewrite handleAdminRequest_admitted;
      [| apply startsWith_app | exact Hauth].
    unfold dispatch. cbn [pathname withPath]. fold base. rewrite H2.
    now rewrite route_unregistered by apply registered_empty.
Qed.

Lemma operationOf_trailing_slash (base middle sel : string) :
  segment sel = true ->
  operationOf base (base ++ middle ++ "/" ++ sel ++ "/") = "/" ++ sel.
Proof.
  intros Hseg. apply andb_true_iff in Hseg as [Hne Hns].
  unfold operationOf. rewrite slice_app.
  change ("/" ++ sel ++ "/") with (String "/" (sel ++ String "/" "")).
  rewrite !split_app, (split_noSlash sel Hns).
  rewrite !List.filter_app. cbn [List.filter split]. rewrite Hne.
  change (nonEmpty "") with false. cbv iota. rewrite app_nil_r.
  now rewrite last_snoc.
Qed.

(** X20: The base path is matched as a prefix of the path's text and only the
    last non-empty segment counts: whatever text stands between the base
    path and the final segment (even text that continues the base path's
    own last segment), and with or without a trailing slash, the request
    gets the answer of the plain path of that segment. *)
Theorem text_before_last_segment_is_ignored (options : AdminHooksOptions)
    (request : Request) (w : World) (middle sel : string) :
  let base := default "/admin" (basePath options) in
  segment sel = true ->
  handleAdminRequest sqlExec options
    (withPath request (base ++ middle ++ "/" ++ sel)) w
  = handleAdminRequest sqlExec options (withPath request (base ++ "/" ++ sel)) w /\
  handleAdminRequest sqlExec options
    (withPath request (base ++ middle ++ "/" ++ sel ++ "/")) w
  = handleAdminRequest sqlExec options (withPath request (base ++ "/" ++ sel)) w.
Proof.
  intros base Hseg. subst base.
  rewrite !handleAdminRequest_on_path.
  rewrite (operationOf_last _ middle sel Hseg).
  rewrite (operationOf_trailing_slash _ middle sel Hseg).
  pose proof (operationOf_last (default "/admin" (basePath options)) "" sel Hseg)
    as H0.
  rewrite append_nil in H0. rewrite H0. split; reflexivity.
Qed.

Lemma route_of (request : Request) (operation sel m : string) (w : World) :
  operation = sel -> method request = m ->
  route sqlExec request operation w
  = route sqlExec
      (mkRequest m (pathname request) (searchKey request) (xAdminKey request)
         (jsonBody request)) sel w.
Proof. intros -> <-. reflexivity. Qed.

(** X21: Requests that lack a required field are answered 400 with the
    matching message and no storage call: get without a key parameter or
    with an empty one, put and delete whose body has no truthy key, sql
    whose body has no truthy query, alarm whose timestamp is not a number,
    import whose data is missing, null or not an object. *)
Theorem missing_fields_answer_400 (options : AdminHooksOptions)
    (request : Request) (w : World) (props : JsRecord) :
  let base := default "/admin" (basePath options) in
  let operation := operationOf base (pathname request) in
  let field name := default JUndefined (recordGet props name) in
  let answer message :=
    handleAdminRequest sqlExec options request w
    = (Some (jsonResponse 400 (errorBody message)), w) in
  startsWith (pathname request) base = true ->
  authenticated options request = true ->
  (operation = "/get" -> method request = "GET" ->
   searchKey request = None \/ searchKey request = Some "" ->
   answer "Missing key parameter") /\
  (jsonBody request = inr (JObject props) ->
   (operation = "/put" -> method request = "POST" ->
    truthy (field "key") = false -> answer "Missing key in body") /\
   (operation = "/delete" -> method request = "POST" ->
    truthy (field "key") = false -> answer "Missing key in body") /\
   (operation = "/sql" -> method request = "POST" ->
    truthy (field "query") = false -> answer "Missing query in body") /\
   (operation = "/alarm" -> method request = "PUT" ->
    (forall t : Z, field "timestamp" <> JNumber t) ->
    answer "Missing or invalid timestamp") /\
   (operation = "/import" -> method request = "POST" ->
    nullish (field "data") || negb (typeofObject (field "data")) = true ->
    answer "Missing or invalid data object")).
Proof.
  intros base operation field answer Hpath Hauth. subst answer. cbv beta.
  rewrite (handleAdminRequest_admitted options request w Hpath Hauth).
  unfold dispatch. fold base. fold operation. split.
  - intros Hop Hm Hkey. rewrite (route_of request operation _ _ w Hop Hm).
    unfold route. cbn. destruct Hkey as [-> | ->]; reflexivity.
  - intros Hbody. repeat split; intros Hop Hm Hfield;
      rewrite (route_of request operation _ _ w Hop Hm);
      unfold route, request_json, getProp, bind, ret; cbn; rewrite Hbody;
      fold (field "key") (field "query") (field "timestamp") (field "data").
    + now rewrite Hfield.
    + now rewrite Hfield.
    + now rewrite Hfield.
    + destruct (field "timestamp") eqn:Ht; try reflexivity.
      exfalso. now apply (Hfield n).
    + now rewrite Hfield.
Qed.

(** X22: An admitted POST import on an unfrozen instance writes every own
    property of [data] and answers 200 with their number as [imported]. *)
Theorem import_request_counts_entries (options : AdminHooksOptions)
    (request : Request) (w : World) (props entries : JsRecord) :
  let base := default "/admin" (basePath options) in
  startsWith (pathname request) base = true ->
  authenticated options request = true ->
  operationOf base (pathname request) = "/import" ->
  method request = "POST" ->
  jsonBody request = inr (JObject props) ->
  recordGet props "data" = Some (JObject entries) ->
  isFrozen w = false ->
  exists w',
    handleAdminRequest sqlExec options request w
    = (Some (Response_json
               (JObject [("success", JBool true);
                         ("imported", JNumber (Z.of_nat (length entries)))])),
       w') /\
    kv w' = putAll entries (kv w) /\
    calls w' = (calls w ++ [CallGet FROZEN_STORAGE_KEY; CallPutEntries entries])%list.
Proof.
  intros base Hpath Hauth Hop Hm Hbody Hdata Hfrozen.
  rewrite (handleAdminRequest_admitted options request w Hpath Hauth).
  unfold dispatch. fold base.
  rewrite (route_of request _ _ _ w Hop Hm).
  unfold route, request_json, getProp. cbn [method jsonBody].
  change (String.eqb "/import" "/list") with false.
  cbn. rewrite Hbody. unfold bind at 1, ret at 1.
  unfold bind at 1. rewrite Hdata. cbn [from_option id]. unfold ret at 1.
  cbn [nullish typeofObject orb negb ownEntries].
  unfold bind at 1. rewrite (adminImport_unfrozen w entries Hfrozen).
  unfold ret. eexists. split; [reflexivity |]. cbn.
  split; [reflexivity |]. now rewrite <- app_assoc.
Qed.

Lemma route_sql (request : Request) (w : World) (props : JsRecord)
    (query : JsValue) :
  method request = "POST" ->
  jsonBody request = inr (JObject props) ->
  recordGet props "query" = Some query ->
  truthy query = true ->
  route sqlExec request "/sql" w
  = (let* r := adminSql sqlExec query in
     ret (Response_json (json_of_sql r))) w.
Proof.
  intros Hm Hbody Hq Ht.
  rewrite (route_of request "/sql" "/sql" "POST" w eq_refl Hm).
  unfold route, request_json, getProp. cbn [method jsonBody].
  cbn. rewrite Hbody. unfold bind at 1, ret at 1.
  unfold bind at 1. rewrite Hq. cbn [from_option id]. unfold ret at 1.
  now rewrite Ht.
Qed.

(** X23: An admitted POST sql with a truthy query is answered 500 "SQL not
    available" on a key-value instance, 500 with the engine's message when
    the engine throws an [Error], 500 "Unknown error" when it throws
    anything else, and 200 with the rows, their count and the column names
    when it returns. *)
Theorem sql_request_outcomes (options : AdminHooksOptions) (request : Request)
    (w : World) (props : JsRecord) (query : JsValue) :
  let base := default "/admin" (basePath options) in
  startsWith (pathname request) base = true ->
  authenticated options request = true ->
  operationOf base (pathname request) = "/sql" ->
  method request = "POST" ->
  jsonBody request = inr (JObject props) ->
  recordGet props "query" = Some query ->
  truthy query = true ->
  (sql w = None ->
   handleAdminRequest sqlExec options request w
   = (Some (jsonResponse 500
              (errorBody "SQL not available - this DO uses KV storage backend")),
      w)) /\
  (forall (db db' : SqlDb) (message : string),
     sql w = Some db ->
     sqlExec query db = (inl (ErrorObj message), db') ->
     (handleAdminRequest sqlExec options request w).1
     = Some (jsonResponse 500 (errorBody message))) /\
  (forall (db db' : SqlDb) (v : JsValue),
     sql w = Some db ->
     sqlExec query db = (inl (ThrownValue v), db') ->
     (handleAdminRequest sqlExec options request w).1
     = Some (jsonResponse 500 (errorBody "Unknown error"))) /\
  (forall (db db' : SqlDb) (r : SqlStorageResult),
     sql w = Some db ->
     sqlExec query db = (inr r, db') ->
     (handleAdminRequest sqlExec options request w).1
     = Some (Response_json
               (JObject [("result", JArray (map JObject (rows r)));
                         ("rowCount", JNumber (Z.of_nat (length (rows r))));
                         ("columns", JArray (map JString (columnNames r)))]))).
Proof.
  intros base Hpath Hauth Hop Hm Hbody Hq Ht.
  rewrite (handleAdminRequest_admitted options request w Hpath Hauth).
  unfold dispatch. fold base. rewrite Hop.
  rewrite (route_sql request w props query Hm Hbody Hq Ht).
  unfold bind, adminSql, sql_exec, throw, ret. repeat split.
  - now intros ->.
  - intros db db' message -> Hexec. now rewrite Hexec.
  - intros db db' v -> Hexec. now rewrite Hexec.
  - intros db db' r -> Hexec. now rewrite Hexec.
Qed.

End Properties.

(** ** The properties on the sample instance *)

Lemma C1_authentication_witness :
  requireAuth secured = Some true /\
  adminKey secured = Some "my-secret-key" /\
  startsWith "/admin/list" (default "/admin" (basePath secured)) = true /\
  handleAdminRequest noTables secured
    (bodyless "GET" "/admin/list" None (Some "my-secret-key")) freshWorld
  = dispatch noTables "/admin"
      (bodyless "GET" "/admin/list" None (Some "my-secret-key")) freshWorld /\
  handleAdminRequest noTables secured
    (bodyless "GET" "/admin/list" None (Some "my-secret-kez")) freshWorld
  = (Some (jsonResponse 401 (errorBody "Unauthorized")), freshWorld) /\
  handleAdminRequest noTables secured
    (bodyless "GET" "/admin/list" None None) freshWorld
  = (Some (jsonResponse 401 (errorBody "Unauthorized")), freshWorld).
Proof.
  do 3 (split; [reflexivity |]).
  split; [| split].
  - exact (proj1 (proj2 (C1_authentication noTables secured
                           (bodyless "GET" "/admin/list" None (Some "my-secret-key"))
                           freshWorld "my-secret-key" eq_refl eq_refl eq_refl))
             eq_refl).
  - exact (proj1 (proj2 (proj2 (C1_authentication noTables secured
                           (bodyless "GET" "/admin/list" None (Some "my-secret-kez"))
                           freshWorld "my-secret-key" eq_refl eq_refl eq_refl)))
             ltac:(discriminate)).
  - exact (proj1 (proj2 (proj2 (C1_authentication noTables secured
                           (bodyless "GET" "/admin/list" None None)
                           freshWorld "my-secret-key" eq_refl eq_refl eq_refl)))
             ltac:(discriminate)).
Defined.

Lemma C2_frozen_blocks_mutation_witness :
  isFrozen frozenWorld = true /\
  "a" <> FROZEN_STORAGE_KEY /\
  adminPut (JString "a") (JNumber 1) frozenWorld
  = (inl frozenError, logCall (CallGet FROZEN_STORAGE_KEY) frozenWorld).
Proof.
  split; [reflexivity |]. split; [discriminate |].
  exact (proj1 (C2_frozen_blocks_mutation frozenWorld "a" (JNumber 1) []
                  eq_refl ltac:(discriminate))).
Defined.

Lemma C3_freeze_invariant_witness :
  writesReserved (OpPut "a" (JNumber 1)) = false /\
  freezeInvariant freshWorld /\
  freezeInvariant (after noTables (OpPut "a" (JNumber 1)) freshWorld).
Proof.
  split; [reflexivity |].
  split; [exact (proj1 (C3_freeze_invariant noTables) None sampleNow) |].
  exact (proj2 (C3_freeze_invariant noTables)
           (OpPut "a" (JNumber 1)) freshWorld eq_refl
           (proj1 (C3_freeze_invariant noTables) None sampleNow)).
Defined.

(** Against C3 as stated: a put on the frozen-flag key of a fresh instance
    leaves the flag set with no frozen-at entry. *)
Lemma C3_counterexample :
  freezeInvariant freshWorld /\
  ~ freezeInvariant
      (after noTables (OpPut FROZEN_STORAGE_KEY (JBool true)) freshWorld).
Proof.
  split.
  - exact (freezeInvariant_initial None sampleNow).
  - unfold freezeInvariant. intros [_ H].
    assert (Hset : kv (after noTables
                         (OpPut FROZEN_STORAGE_KEY (JBool true)) freshWorld)
                   !! FROZEN_STORAGE_KEY = Some (JBool true)) by reflexivity.
    destruct (H Hset) as [x Hx]. vm_compute in Hx. discriminate.
Qed.

Lemma C4_flag_key_exempt_witness :
  isFrozen frozenWorld = true /\
  JBool false <> JUndefined /\
  adminPut (JString FROZEN_STORAGE_KEY) (JBool false) frozenWorld
  = (inr tt,
     logCall (CallPut FROZEN_STORAGE_KEY (JBool false))
       (setKv (<[FROZEN_STORAGE_KEY := JBool false]> (kv frozenWorld))
          frozenWorld)).
Proof.
  split; [reflexivity |]. split; [discriminate |].
  exact (proj1 (proj2 (proj2 (proj2
           (C4_flag_key_exempt frozenWorld (JBool false)))))
           ltac:(discriminate)).
Defined.

(** Against C4 as stated: on a frozen instance a put or a delete on the
    frozen-at key throws the frozen error. *)
Lemma C4_counterexample :
  reservedKey FROZEN_AT_KEY = true /\
  isFrozen frozenWorld = true /\
  (adminPut (JString FROZEN_AT_KEY) (JString sampleNow) frozenWorld).1
  = inl frozenError /\
  (adminDelete (JString FROZEN_AT_KEY) frozenWorld).1 = inl frozenError.
Proof. repeat split. Qed.

Lemma C5_put_then_get_witness :
  isFrozen freshWorld = false /\
  JNumber 1 <> JUndefined /\
  exists w',
    adminPut (JString "a") (JNumber 1) freshWorld = (inr tt, w') /\
    (adminGet "a" w').1 = inr (mkGetResponse (JNumber 1)).
Proof.
  split; [reflexivity |]. split; [discriminate |].
  exact (proj1 (C5_put_then_get freshWorld "a" (JNumber 1) eq_refl)
           ltac:(discriminate)).
Defined.

(** Against C5 as stated: on an unfrozen instance [adminPut] of the value
    [undefined] throws and stores nothing, and a POST put whose body has
    no value is answered 500. *)
Lemma C5_counterexample :
  isFrozen freshWorld = false /\
  (adminPut (JString "a") JUndefined freshWorld).1 = inl undefinedValueError /\
  kv (adminPut (JString "a") JUndefined freshWorld).2 = kv freshWorld /\
  (handleAdminRequest noTables unsecured
     (mkRequest "POST" "/admin/put" None None
        (inr (JObject [("key", JString "a")]))) freshWorld).1
  = Some (jsonResponse 500 (errorBody "put() called with undefined value.")).
Proof. repeat split. Qed.

(** C6: at an instance that stores an entry under [__proto__],
    [adminExport] returns data without that entry while [keyCount] counts
    it, and importing the data into a fresh instance does not bring the
    entry back. *)
Theorem C6_export_drops_proto_entry :
  isFrozen protoWorld = false /\
  kv protoWorld !! "__proto__" = Some (JNumber 1) /\
  exists r w1,
    adminExport protoWorld = (inr r, w1) /\
    data r = [] /\
    keyCount r = 1%nat /\
    exists w2,
      adminImport (data r) freshWorld = (inr tt, w2) /\
      kv w2 !! "__proto__" = None.
Proof.
  split; [reflexivity |]. split; [reflexivity |].
  eexists _, _. split; [apply adminExport_world |].
  cbn [data keyCount].
  assert (Hdata : collect (map_to_list (kv protoWorld)) = [])
    by (vm_compute; reflexivity).
  rewrite Hdata.
  split; [reflexivity |]. split; [vm_compute; reflexivity |].
  eexists. split; [apply adminImport_unfrozen; reflexivity |].
  reflexivity.
Qed.

Lemma C7_last_segment_selects_witness :
  segment "get" = true /\
  handleAdminRequest noTables unsecured
    (withPath (bodyless "GET" "/" (Some "x") None)
       ("/admin" ++ "/" ++ "MyInstance" ++ "/" ++ "get"))
    freshWorld
  = handleAdminRequest noTables unsecured
      (withPath (bodyless "GET" "/" (Some "x") None) ("/admin" ++ "/" ++ "get"))
      freshWorld /\
  handleAdminRequest noTables unsecured
    (withPath (bodyless "GET" "/" (Some "x") None) "/admin/MyInstance/get")
    freshWorld
  = (Some (Response_json (JObject [("value", JUndefined)])),
     logCall (CallGet "x") freshWorld) /\
  registered (operationOf "/admin" "/admin/unknown") "GET" = false /\
  handleAdminRequest noTables unsecured
    (bodyless "GET" "/admin/unknown" None None) freshWorld
  = (Some (jsonResponse 404 (errorBody "Unknown admin endpoint")), freshWorld).
Proof.
  split; [reflexivity |].
  split; [| split; [| split; [reflexivity |]]].
  - exact (proj2 (proj2 (proj1 (C7_last_segment_selects noTables unsecured
                                  (bodyless "GET" "/" (Some "x") None)
                                  freshWorld "MyInstance")
                           "get" eq_refl))).
  - exact (proj2 (proj1 (proj2 (C7_last_segment_selects noTables unsecured
                                  (bodyless "GET" "/" (Some "x") None)
                                  freshWorld "MyInstance"))
                    "x" eq_refl eq_refl ltac:(discriminate) eq_refl)).
  - exact (proj2 (proj2 (C7_last_segment_selects noTables unsecured
                           (bodyless "GET" "/admin/unknown" None None)
                           freshWorld "MyInstance"))
             eq_refl eq_refl eq_refl).
Defined.

Lemma C8_failure_answers_500_witness :
  startsWith "/admin/put" "/admin" = true /\
  authenticated unsecured (putRequest (JString "a") (JNumber 1)) = true /\
  isFrozen frozenWorld = true /\
  handleAdminRequest noTables unsecured (putRequest (JString "a") (JNumber 1))
    frozenWorld
  = (Some (jsonResponse 500
             (errorBody "Instance is frozen. Unfreeze before making changes.")),
     logCall (CallGet FROZEN_STORAGE_KEY) frozenWorld) /\
  adminSql noTables (JString "SELECT 1") freshWorld
  = (inl (ErrorObj "SQL not available - this DO uses KV storage backend"),
     freshWorld) /\
  handleAdminRequest noTables unsecured
    (mkRequest "POST" "/admin/sql" None None
       (inr (JObject [("query", JString "SELECT 1")])))
    freshWorld
  = (Some (jsonResponse 500
             (errorBody "SQL not available - this DO uses KV storage backend")),
     freshWorld).
Proof.
  do 3 (split; [reflexivity |]).
  split; [| split; [reflexivity |]].
  - exact (proj2 (proj2 (C8_failure_answers_500 noTables unsecured
                           (putRequest (JString "a") (JNumber 1)) frozenWorld
                           eq_refl eq_refl))
             [("key", JString "a"); ("value", JNumber 1)] (JString "a")
             eq_refl eq_refl eq_refl eq_refl eq_refl eq_refl eq_refl).
  - exact (proj1 (C8_failure_answers_500 noTables unsecured
                    (mkRequest "POST" "/admin/sql" None None
                       (inr (JObject [("query", JString "SELECT 1")])))
                    freshWorld eq_refl eq_refl)
             (ErrorObj "SQL not available - this DO uses KV storage backend")
             freshWorld eq_refl).
Defined.

(** Against C8 as stated: on a frozen instance a POST put on the
    frozen-flag key is answered 200 with [{success: true}]. *)
Lemma C8_counterexample :
  isFrozen frozenWorld = true /\
  (handleAdminRequest noTables unsecured
     (putRequest (JString FROZEN_STORAGE_KEY) (JBool false)) frozenWorld).1
  = Some (Response_json successBody).
Proof. split; reflexivity. Qed.

Lemma C9_unset_key_admits_missing_header_witness :
  requireAuth keyless = Some true /\
  adminKey keyless = None /\
  authenticated keyless (bodyless "GET" "/admin/list" None None) = true.
Proof.
  do 2 (split; [reflexivity |]).
  exact (proj1 (C9_unset_key_admits_missing_header noTables keyless
                  (bodyless "GET" "/admin/list" None None) freshWorld
                  eq_refl eq_refl eq_refl eq_refl)).
Defined.

Lemma C10_reserved_keys_are_entries_witness :
  sql freshWorld = None /\
  exists ks w2,
    adminList noTables frozenWorld = (inr (mkListResponse (Some ks) None), w2) /\
    FROZEN_STORAGE_KEY ∈ ks /\ FROZEN_AT_KEY ∈ ks.
Proof.
  split; [reflexivity |].
  exact (proj2 (C10_reserved_keys_are_entries noTables freshWorld) eq_refl).
Defined.

(** ** The further properties on the sample instances *)

Lemma handleAdminRequest_answers_witness :
  startsWith "/increment" "/admin" = false /\
  handleAdminRequest noTables unsecured
    (bodyless "GET" "/increment" None None) freshWorld
  = (None, freshWorld) /\
  startsWith "/admin/list" "/admin" = true /\
  exists response w',
    handleAdminRequest noTables unsecured
      (bodyless "GET" "/admin/list" None None) freshWorld
    = (Some response, w') /\
    contentType response = "application/json" /\
    (status response = 200 \/ status response = 400 \/ status response = 401
     \/ status response = 404 \/ status response = 500).
Proof.
  split; [reflexivity |].
  split; [exact (proj1 (handleAdminRequest_answers noTables unsecured
                          (bodyless "GET" "/increment" None None) freshWorld)
                   eq_refl) |].
  split; [reflexivity |].
  exact (proj2 (handleAdminRequest_answers noTables unsecured
                  (bodyless "GET" "/admin/list" None None) freshWorld)
           eq_refl).
Defined.

Lemma refusal_leaves_world_witness :
  handleAdminRequest noTables secured
    (putRequest (JString "a") (JNumber 1)) frozenWorld
  = (Some (jsonResponse 401 (errorBody "Unauthorized")), frozenWorld) /\
  frozenWorld = frozenWorld.
Proof.
  split; [reflexivity |].
  exact (refusal_leaves_world noTables secured
           (putRequest (JString "a") (JNumber 1)) frozenWorld frozenWorld
           (jsonResponse 401 (errorBody "Unauthorized"))
           eq_refl (or_intror (or_introl eq_refl))).
Defined.

Lemma fetch_answers_witness :
  startsWith "/increment" "/admin" = false /\
  fetch noTables unsecured (bodyless "GET" "/increment" None None) freshWorld
  = (defaultResponse, freshWorld) /\
  startsWith "/admin/export" "/admin" = true /\
  exists response w',
    handleAdminRequest noTables unsecured
      (bodyless "GET" "/admin/export" None None) freshWorld
    = (Some response, w') /\
    fetch noTables unsecured (bodyless "GET" "/admin/export" None None) freshWorld
    = (response, w') /\
    response <> defaultResponse.
Proof.
  split; [reflexivity |].
  split; [exact (proj1 (fetch_answers noTables unsecured
                          (bodyless "GET" "/increment" None None) freshWorld)
                   eq_refl) |].
  split; [reflexivity |].
  exact (proj2 (fetch_answers noTables unsecured
                  (bodyless "GET" "/admin/export" None None) freshWorld)
           eq_refl).
Defined.

Lemma unparsed_body_answers_500_witness :
  readsBody (operationOf "/admin" "/admin/put") "POST" = true /\
  handleAdminRequest noTables unsecured
    (bodyless "POST" "/admin/put" None None) freshWorld
  = (Some (jsonResponse 500 (errorBody "Unexpected end of JSON input")),
     freshWorld).
Proof.
  split; [reflexivity |].
  exact (unparsed_body_answers_500 noTables unsecured
           (bodyless "POST" "/admin/put" None None) freshWorld
           "Unexpected end of JSON input" eq_refl eq_refl eq_refl eq_refl).
Defined.

Lemma freeze_blocks_writes_witness :
  "a" <> FROZEN_STORAGE_KEY /\
  (adminPut (JString "a") (JNumber 1) (adminFreeze freshWorld).2).1
  = inl frozenError.
Proof.
  split; [discriminate |].
  exact (proj1 (proj2 (proj2 (proj2
           (freeze_blocks_writes freshWorld "a" (JNumber 1) []
              ltac:(discriminate)))))).
Defined.

Lemma unfreeze_clears_record_witness :
  reservedKey "a" = false /\
  kv (adminUnfreeze frozenWorld).2 !! "a" = kv frozenWorld !! "a" /\
  JNumber 1 <> JUndefined /\
  (adminPut (JString "a") (JNumber 1) (adminUnfreeze frozenWorld).2).1 = inr tt.
Proof.
  split; [reflexivity |].
  split; [exact (proj1 (proj2 (proj2 (proj2 (proj2
                   (unfreeze_clears_record frozenWorld))))) "a" eq_refl) |].
  split; [discriminate |].
  exact (proj2 (proj2 (proj2 (proj2 (proj2 (proj2
           (unfreeze_clears_record frozenWorld))))))
           "a" (JNumber 1) ltac:(discriminate)).
Defined.

Lemma freeze_unfreeze_restores_witness :
  kv freshWorld !! FROZEN_STORAGE_KEY = None /\
  kv freshWorld !! FROZEN_AT_KEY = None /\
  kv (adminUnfreeze (adminFreeze freshWorld).2).2 = kv freshWorld.
Proof.
  do 2 (split; [reflexivity |]).
  exact (freeze_unfreeze_restores freshWorld eq_refl eq_refl).
Defined.

Lemma flag_value_drives_guard_witness :
  "a" <> FROZEN_STORAGE_KEY /\
  JString "yes" <> JUndefined /\
  (adminPut (JString "a") (JNumber 1)
     (adminPut (JString FROZEN_STORAGE_KEY) (JString "yes") freshWorld).2).1
  = inl frozenError.
Proof.
  split; [discriminate |]. split; [discriminate |].
  exact (proj1 (proj2 (proj1 (flag_value_drives_guard freshWorld (JString "yes")
                                (JNumber 1) "a" ltac:(discriminate))
                         ltac:(discriminate)))).
Defined.

Lemma put_leaves_other_entries_witness :
  isFrozen freshWorld = false /\
  "b" <> "a" /\
  (adminGet "b" (adminPut (JString "a") (JNumber 1) freshWorld).2).1
  = (adminGet "b" freshWorld).1.
Proof.
  split; [reflexivity |]. split; [discriminate |].
  exact (proj1 (put_leaves_other_entries freshWorld "a" "b" (JNumber 1)
                  eq_refl ltac:(discriminate))).
Defined.

Lemma delete_then_get_witness :
  isFrozen freshWorld = false /\
  exists w1,
    adminDelete (JString "a") freshWorld = (inr tt, w1) /\
    (adminGet "a" w1).1 = inr (mkGetResponse JUndefined) /\
    (forall k' : string, k' <> "a" -> kv w1 !! k' = kv freshWorld !! k') /\
    (kv freshWorld !! "a" = None -> kv w1 = kv freshWorld).
Proof.
  split; [reflexivity |].
  exact (delete_then_get freshWorld "a" eq_refl).
Defined.

Lemma put_then_delete_witness :
  isFrozen freshWorld = false /\
  kv freshWorld !! "a" = None /\
  kv (adminDelete (JString "a")
        (adminPut (JString "a") (JNumber 1) freshWorld).2).2
  = kv freshWorld.
Proof.
  do 2 (split; [reflexivity |]).
  exact (proj2 (put_then_delete freshWorld "a" (JNumber 1) eq_refl) eq_refl).
Defined.


Lemma adminSql_outcomes_witness :
  sql freshWorld = None /\
  adminSql noTables (JString "SELECT 1") freshWorld
  = (inl (ErrorObj "SQL not available - this DO uses KV storage backend"),
     freshWorld) /\
  sql sqlWorld = Some tt /\
  (exists w',
     adminSql oneTable (JString "SELECT name FROM t") sqlWorld
     = (inr (mkSqlResponse [[("name", JString "users")]] 1 ["name"]), w') /\
     kv w' = kv sqlWorld /\ alarmAt w' = alarmAt sqlWorld /\ sql w' = Some tt /\
     calls w'
     = (calls sqlWorld ++ [CallSqlExec (JString "SELECT name FROM t")])%list) /\
  (exists w',
     adminSql noTables (JString "SELECT name FROM t") sqlWorld
     = (inl (ErrorObj "no such table"), w') /\
     kv w' = kv sqlWorld /\ alarmAt w' = alarmAt sqlWorld /\ sql w' = Some tt).
Proof.
  split; [reflexivity |].
  split; [exact (proj1 (adminSql_outcomes noTables freshWorld (JString "SELECT 1"))
                   eq_refl) |].
  split; [reflexivity |].
  split.
  - exact (proj1 (proj2 (adminSql_outcomes oneTable sqlWorld
                           (JString "SELECT name FROM t")))
             tt tt (mkSqlResult [[("name", JString "users")]] ["name"])
             eq_refl eq_refl).
  - exact (proj2 (proj2 (adminSql_outcomes noTables sqlWorld
                           (JString "SELECT name FROM t")))
             tt tt (ErrorObj "no such table") eq_refl eq_refl).
Defined.

Lemma adminList_lists_witness :
  sql frozenWorld = None /\
  (exists ks w',
     adminList noTables frozenWorld = (inr (mkListResponse (Some ks) None), w') /\
     NoDup ks /\
     (forall k : string, k ∈ ks <-> is_Some (kv frozenWorld !! k)) /\
     length ks = size (kv frozenWorld) /\
     onlyRead frozenWorld w') /\
  sql sqlWorld = Some tt /\
  (adminList oneTable sqlWorld).1
  = inr (mkListResponse None (Some [JString "users"])).
Proof.
  split; [reflexivity |].
  split; [exact (proj1 (adminList_lists noTables frozenWorld) eq_refl) |].
  split; [reflexivity |].
  exact (proj2 (adminList_lists oneTable sqlWorld) tt tt
           (mkSqlResult [[("name", JString "users")]] ["name"])
           eq_refl eq_refl).
Defined.

Lemma read_operations_only_read_witness :
  readOnlyCall OpExport = true /\
  onlyRead frozenWorld (after noTables OpExport frozenWorld) /\
  sql frozenWorld = None /\
  onlyRead frozenWorld (after noTables OpList frozenWorld).
Proof.
  split; [reflexivity |].
  split; [exact (read_operations_only_read noTables OpExport frozenWorld
                   eq_refl ltac:(discriminate)) |].
  split; [reflexivity |].
  exact (read_operations_only_read noTables OpList frozenWorld
           eq_refl (fun _ => eq_refl)).
Defined.

Lemma bare_base_path_is_unknown_witness :
  authenticated unsecured (bodyless "GET" "/" None None) = true /\
  handleAdminRequest noTables unsecured
    (withPath (bodyless "GET" "/" None None) "/admin") freshWorld
  = (Some (jsonResponse 404 (errorBody "Unknown admin endpoint")), freshWorld).
Proof.
  split; [reflexivity |].
  exact (proj1 (proj2 (proj2 (bare_base_path_is_unknown noTables unsecured
                                (bodyless "GET" "/" None None) freshWorld
                                eq_refl)))).
Defined.

Lemma text_before_last_segment_is_ignored_witness :
  segment "list" = true /\
  handleAdminRequest noTables unsecured
    (withPath (bodyless "GET" "/" None None)
       ("/admin" ++ "istrator" ++ "/" ++ "list")) frozenWorld
  = handleAdminRequest noTables unsecured
      (withPath (bodyless "GET" "/" None None) ("/admin" ++ "/" ++ "list"))
      frozenWorld.
Proof.
  split; [reflexivity |].
  exact (proj1 (text_before_last_segment_is_ignored noTables unsecured
                  (bodyless "GET" "/" None None) frozenWorld "istrator" "list"
                  eq_refl)).
Defined.

Lemma missing_fields_answer_400_witness :
  handleAdminRequest noTables unsecured
    (bodyless "GET" "/admin/get" None None) freshWorld
  = (Some (jsonResponse 400 (errorBody "Missing key parameter")), freshWorld) /\
  handleAdminRequest noTables unsecured
    (mkRequest "POST" "/admin/put" None None (inr (JObject []))) freshWorld
  = (Some (jsonResponse 400 (errorBody "Missing key in body")), freshWorld) /\
  handleAdminRequest noTables unsecured
    (mkRequest "POST" "/admin/delete" None None
       (inr (JObject [("key", JString "")]))) freshWorld
  = (Some (jsonResponse 400 (errorBody "Missing key in body")), freshWorld) /\
  handleAdminRequest noTables unsecured
    (mkRequest "POST" "/admin/sql" None None (inr (JObject []))) freshWorld
  = (Some (jsonResponse 400 (errorBody "Missing query in body")), freshWorld) /\
  handleAdminRequest noTables unsecured
    (mkRequest "PUT" "/admin/alarm" None None
       (inr (JObject [("timestamp", JString "soon")]))) freshWorld
  = (Some (jsonResponse 400 (errorBody "Missing or invalid timestamp")),
     freshWorld) /\
  handleAdminRequest noTables unsecured
    (mkRequest "POST" "/admin/import" None None
       (inr (JObject [("data", JString "x")]))) freshWorld
  = (Some (jsonResponse 400 (errorBody "Missing or invalid data object")),
     freshWorld).
Proof.
  split; [| split; [| split; [| split; [| split]]]].
  - exact (proj1 (missing_fields_answer_400 noTables unsecured
                    (bodyless "GET" "/admin/get" None None) freshWorld []
                    eq_refl eq_refl)
             eq_refl eq_refl (or_introl eq_refl)).
  - exact (proj1 (proj2 (missing_fields_answer_400 noTables unsecured
                           (mkRequest "POST" "/admin/put" None None
                              (inr (JObject []))) freshWorld []
                           eq_refl eq_refl) eq_refl)
             eq_refl eq_refl eq_refl).
  - exact (proj1 (proj2 (proj2 (missing_fields_answer_400 noTables unsecured
                           (mkRequest "POST" "/admin/delete" None None
                              (inr (JObject [("key", JString "")]))) freshWorld
                           [("key", JString "")]
                           eq_refl eq_refl) eq_refl))
             eq_refl eq_refl eq_refl).
  - exact (proj1 (proj2 (proj2 (proj2 (missing_fields_answer_400 noTables unsecured
                           (mkRequest "POST" "/admin/sql" None None
                              (inr (JObject []))) freshWorld []
                           eq_refl eq_refl) eq_refl)))
             eq_refl eq_refl eq_refl).
  - exact (proj1 (proj2 (proj2 (proj2 (proj2
             (missing_fields_answer_400 noTables unsecured
                (mkRequest "PUT" "/admin/alarm" None None
                   (inr (JObject [("timestamp", JString "soon")]))) freshWorld
                [("timestamp", JString "soon")]
                eq_refl eq_refl) eq_refl))))
             eq_refl eq_refl ltac:(intros t; discriminate)).
  - exact (proj2 (proj2 (proj2 (proj2 (proj2
             (missing_fields_answer_400 noTables unsecured
                (mkRequest "POST" "/admin/import" None None
                   (inr (JObject [("data", JString "x")]))) freshWorld
                [("data", JString "x")]
                eq_refl eq_refl) eq_refl))))
             eq_refl eq_refl eq_refl).
Defined.

Lemma import_request_counts_entries_witness :
  isFrozen freshWorld = false /\
  exists w',
    handleAdminRequest noTables unsecured
      (mkRequest "POST" "/admin/import" None None
         (inr (JObject [("data", JObject [("a", JNumber 1); ("b", JNull)])])))
      freshWorld
    = (Some (Response_json
               (JObject [("success", JBool true);
                         ("imported", JNumber (Z.of_nat 2))])),
       w') /\
    kv w' = putAll [("a", JNumber 1); ("b", JNull)] (kv freshWorld) /\
    calls w'
    = (calls freshWorld
       ++ [CallGet FROZEN_STORAGE_KEY;
           CallPutEntries [("a", JNumber 1); ("b", JNull)]])%list.
Proof.
  split; [reflexivity |].
  exact (import_request_counts_entries noTables unsecured
           (mkRequest "POST" "/admin/import" None None
              (inr (JObject [("data", JObject [("a", JNumber 1); ("b", JNull)])])))
           freshWorld
           [("data", JObject [("a", JNumber 1); ("b", JNull)])]
           [("a", JNumber 1); ("b", JNull)]
           eq_refl eq_refl eq_refl eq_refl eq_refl eq_refl eq_refl).
Defined.

Lemma sql_request_outcomes_witness :
  truthy (JString "SELECT name FROM t") = true /\
  handleAdminRequest noTables unsecured
    (sqlRequest (JString "SELECT name FROM t")) freshWorld
  = (Some (jsonResponse 500
             (errorBody "SQL not available - this DO uses KV storage backend")),
     freshWorld) /\
  (handleAdminRequest noTables unsecured
     (sqlRequest (JString "SELECT name FROM t")) sqlWorld).1
  = Some (jsonResponse 500 (errorBody "no such table")) /\
  (handleAdminRequest throwsValue unsecured
     (sqlRequest (JString "SELECT name FROM t")) sqlWorld).1
  = Some (jsonResponse 500 (errorBody "Unknown error")) /\
  (handleAdminRequest oneTable unsecured
     (sqlRequest (JString "SELECT name FROM t")) sqlWorld).1
  = Some (Response_json
            (JObject [("result", JArray [JObject [("name", JString "users")]]);
                      ("rowCount", JNumber 1);
                      ("columns", JArray [JString "name"])])).
Proof.
  split; [reflexivity |].
  split; [| split; [| split]].
  - exact (proj1 (sql_request_outcomes noTables unsecured
                    (sqlRequest (JString "SELECT name FROM t")) freshWorld
                    [("query", JString "SELECT name FROM t")]
                    (JString "SELECT name FROM t")
                    eq_refl eq_refl eq_refl eq_refl eq_refl eq_refl eq_refl)
             eq_refl).
  - exact (proj1 (proj2 (sql_request_outcomes noTables unsecured
                    (sqlRequest (JString "SELECT name FROM t")) sqlWorld
                    [("query", JString "SELECT name FROM t")]
                    (JString "SELECT name FROM t")
                    eq_refl eq_refl eq_refl eq_refl eq_refl eq_refl eq_refl))
             tt tt "no such table" eq_refl eq_refl).
  - exact (proj1 (proj2 (proj2 (sql_request_outcomes throwsValue unsecured
                    (sqlRequest (JString "SELECT name FROM t")) sqlWorld
                    [("query", JString "SELECT name FROM t")]
                    (JString "SELECT name FROM t")
                    eq_refl eq_refl eq_refl eq_refl eq_refl eq_refl eq_refl)))
             tt tt (JString "busy") eq_refl eq_refl).
  - exact (proj2 (proj2 (proj2 (sql_request_outcomes oneTable unsecured
                    (sqlRequest (JString "SELECT name FROM t")) sqlWorld
                    [("query", JString "SELECT name FROM t")]
                    (JString "SELECT name FROM t")
                    eq_refl eq_refl eq_refl eq_refl eq_refl eq_refl eq_refl)))
             tt tt (mkSqlResult [[("name", JString "users")]] ["name"])
             eq_refl eq_refl).
Defined.
